(** * FoodAdvisor: prompt construction, JSON extraction and report rendering

    A shallow embedding of [app.py] (a Streamlit page that asks a hosted
    model for a nutrition report) together with the properties its
    specification states about it.

    Python [str] values are sequences of Unicode code points; they are
    modelled as lists of [N].  Python [int] is [Z]; Python [float] is an
    IEEE-754 binary64 value, modelled with the standard library's
    [spec_float] at precision 53 and maximal exponent 1024.  A [dict] is an
    association list in insertion order with unique keys.

    The program calls into the interpreter and its libraries: [str]
    methods, the [json] decoder, the widgets, the image library and the
    model provider.  The [str] methods and the decoder are modelled here
    after CPython (the decoder after its default scanner); the limits
    CPython puts on the depth of recursion and on the number of digits of
    an [int] converted from or to text are not modelled.  The widgets, the
    image library and the provider are recorded as events. *)

From Stdlib Require Import ZArith NArith List Bool Ascii String Lia.
From Stdlib Require Import DecimalString.
From Stdlib Require Import Floats.SpecFloat.
Import ListNotations.

Local Open Scope Z_scope.
Set Warnings "-register-all".

(** ** Text: Python [str] *)

Definition char := N.
Definition text := list char.

Definition ch (a : ascii) : char := N_of_ascii a.

(** The double quote, the apostrophe, the backslash and the line feed. *)
Definition DQUOTE : char := 34%N.
Definition SQUOTE : char := 39%N.
Definition BACKSLASH : char := 92%N.
Definition LF : char := 10%N.

(** [utf8 bs] decodes the bytes of a source literal into code points. *)
Fixpoint utf8 (bs : list N) : text :=
  match bs with
  | [] => []
  | b :: r =>
      if (b <? 128)%N then b :: utf8 r
      else if (b <? 224)%N then
        match r with
        | c1 :: r1 => ((b mod 32) * 64 + c1 mod 64)%N :: utf8 r1
        | _ => []
        end
      else if (b <? 240)%N then
        match r with
        | c1 :: c2 :: r2 =>
            ((b mod 16) * 4096 + (c1 mod 64) * 64 + c2 mod 64)%N :: utf8 r2
        | _ => []
        end
      else
        match r with
        | c1 :: c2 :: c3 :: r3 =>
            ((b mod 8) * 262144 + (c1 mod 64) * 4096
             + (c2 mod 64) * 64 + c3 mod 64)%N :: utf8 r3
        | _ => []
        end
  end.

(** [lit s] is the Python string written as the literal [s] in the source. *)
Definition lit (s : string) : text :=
  utf8 (map N_of_ascii (list_ascii_of_string s)).

(** [litq s] is [lit s] with every apostrophe read as a double quote, so
    that literals of the source that contain double quotes can be written
    down here. *)
Definition litq (s : string) : text :=
  map (fun c => if (c =? SQUOTE)%N then DQUOTE else c) (lit s).

Fixpoint text_eqb (a b : text) : bool :=
  match a, b with
  | [], [] => true
  | x :: a', y :: b' => (x =? y)%N && text_eqb a' b'
  | _, _ => false
  end.

(** [str.startswith] *)
Fixpoint starts_with (p s : text) : bool :=
  match p, s with
  | [], _ => true
  | x :: p', y :: s' => (x =? y)%N && starts_with p' s'
  | _ :: _, [] => false
  end.

(** The characters [str.strip()] removes: [str.isspace], that is the
    Unicode white space property together with the four information
    separators. *)
Definition is_space (c : char) : bool :=
  ((9 <=? c) && (c <=? 13) || (28 <=? c) && (c <=? 32)
   || (c =? 133) || (c =? 160) || (c =? 5760)
   || (8192 <=? c) && (c <=? 8202)
   || (c =? 8232) || (c =? 8233) || (c =? 8239) || (c =? 8287)
   || (c =? 12288))%N.

Fixpoint lstrip (s : text) : text :=
  match s with
  | [] => []
  | c :: r => if is_space c then lstrip r else s
  end.

Definition rstrip (s : text) : text := rev (lstrip (rev s)).

(** [str.strip()] *)
Definition strip (s : text) : text := rstrip (lstrip s).

(** [str.replace(old, new)] for a non-empty [old]: occurrences are found
    from the left and do not overlap.  [skip] counts the characters of the
    occurrence just replaced that are still to be passed over. *)
Fixpoint replace_from (old new : text) (skip : nat) (s : text) : text :=
  match s with
  | [] => []
  | c :: r =>
      match skip with
      | S k => replace_from old new k r
      | O =>
          if starts_with old s
          then new ++ replace_from old new (List.length old - 1) r
          else c :: replace_from old new 0 r
      end
  end.

(** With an empty [old], Python puts [new] before every character and at
    the end. *)
Definition replace (s old new : text) : text :=
  match old with
  | [] => flat_map (fun c => new ++ [c]) s ++ new
  | _ :: _ => replace_from old new 0 s
  end.

(** [str.find(sub)]: the lowest index of an occurrence. *)
Fixpoint find_nat (sub s : text) : option nat :=
  if starts_with sub s then Some O
  else match s with
       | [] => None
       | _ :: r => option_map S (find_nat sub r)
       end.

(** [str.rfind(sub)]: the highest index of an occurrence. *)
Fixpoint rfind_nat (sub s : text) : option nat :=
  match s with
  | [] => if starts_with sub [] then Some O else None
  | _ :: r =>
      match rfind_nat sub r with
      | Some i => Some (S i)
      | None => if starts_with sub s then Some O else None
      end
  end.

Definition index_or_minus1 (o : option nat) : Z :=
  match o with
  | Some i => Z.of_nat i
  | None => -1
  end.

Definition find (s sub : text) : Z := index_or_minus1 (find_nat sub s).
Definition rfind (s sub : text) : Z := index_or_minus1 (rfind_nat sub s).

(** [s[i:j]] with Python's treatment of negative and out-of-range bounds. *)
Definition clamp_index (len i : Z) : Z :=
  let i := if i <? 0 then i + len else i in
  Z.max 0 (Z.min len i).

Definition slice (s : text) (i j : Z) : text :=
  let len := Z.of_nat (List.length s) in
  let lo := clamp_index len i in
  let hi := clamp_index len j in
  firstn (Z.to_nat (hi - lo)) (skipn (Z.to_nat lo) s).

(** [sub in s] *)
Definition contains (sub s : text) : bool :=
  match find_nat sub s with
  | Some _ => true
  | None => false
  end.

(** [sep.join(parts)] *)
Fixpoint join (sep : text) (parts : list text) : text :=
  match parts with
  | [] => []
  | [p] => p
  | p :: rest => p ++ sep ++ join sep rest
  end.

(** ** Values, exceptions and outcomes *)

(** The objects [json.loads] builds: [None], [bool], [int], [float], [str],
    [list] and [dict]. *)
Inductive value : Type :=
| VNone
| VBool (b : bool)
| VInt (z : Z)
| VFloat (f : spec_float)
| VStr (s : text)
| VList (l : list value)
| VDict (d : list (text * value)).

Definition dict := list (text * value).

(** [d.get(k)] *)
Fixpoint dict_get {V : Type} (d : list (text * V)) (k : text) : option V :=
  match d with
  | [] => None
  | (k', v) :: d' => if text_eqb k' k then Some v else dict_get d' k
  end.

(** [d[k] = v]: an existing key keeps its place, a new one goes last. *)
Fixpoint dict_set {V : Type} (d : list (text * V)) (k : text) (v : V)
  : list (text * V) :=
  match d with
  | [] => [(k, v)]
  | (k', v') :: d' =>
      if text_eqb k' k then (k', v) :: d' else (k', v') :: dict_set d' k v
  end.

(** [d.get(k, default)] *)
Definition dict_get_default (d : dict) (k : text) (default : value) : value :=
  match dict_get d k with
  | Some v => v
  | None => default
  end.

(** The exceptions that occur.  [StopIteration] is what the scanner of the
    [json] module raises where no value starts; [FuelExhausted] is not a
    Python exception: it marks the end of the recursion budget of
    [scan_once] below, and [json_loads_fuel] shows it never escapes. *)
Inductive exn : Type :=
| JSONDecodeError
| ValueError (msg : text)
| TypeError
| AttributeError
| KeyError
| OverflowError
| StreamlitAPIException
| StopIteration
| ProviderError (msg : text)
| FuelExhausted.

Inductive result (A : Type) : Type :=
| Ok (a : A)
| Raise (e : exn).
Arguments Ok {A} a.
Arguments Raise {A} e.

(** ** Floats *)

Definition prec : Z := 53.
Definition emax : Z := 1024.

(** The binary64 value nearest to [m * 10 ^ e] (ties to even, overflow to
    infinity), with the sign [neg]: what [float(...)] returns for a decimal
    literal with digits [m] and exponent [e]. *)
Definition float_of_decimal (neg : bool) (m e : Z) : spec_float :=
  match m with
  | Zpos p =>
      if 0 <=? e
      then binary_round prec emax neg (p * Z.to_pos (10 ^ e)) 0
      else
        let '(mz, ez, lz) :=
          SFdiv_core_binary prec emax (Zpos p) 0 (10 ^ (- e)) 0 in
        binary_round_aux prec emax neg mz ez lz
  | _ => S754_zero neg
  end.

(** ** [json.loads]

    The decoder of the [json] module in its default configuration: strict
    strings, no hooks, [int] and [float] for numbers.  The scanner works on
    the text that is left instead of an index into it. *)

Definition is_json_ws (c : char) : bool :=
  ((c =? 32) || (c =? 9) || (c =? 10) || (c =? 13))%N.

Fixpoint skip_ws (s : text) : text :=
  match s with
  | [] => []
  | c :: r => if is_json_ws c then skip_ws r else s
  end.

Definition is_digit (c : char) : bool := ((48 <=? c) && (c <=? 57))%N.

Fixpoint span_digits (s : text) : text * text :=
  match s with
  | [] => ([], [])
  | c :: r =>
      if is_digit c
      then let '(ds, r') := span_digits r in (c :: ds, r')
      else ([], s)
  end.

(** The number a run of decimal digits denotes. *)
Definition digits_value (ds : text) : Z :=
  fold_left (fun acc c => 10 * acc + (Z.of_N c - 48)) ds 0.

Definition hex_digit (c : char) : option N :=
  (if (48 <=? c) && (c <=? 57) then Some (c - 48)
   else if (97 <=? c) && (c <=? 102) then Some (c - 87)
   else if (65 <=? c) && (c <=? 70) then Some (c - 55)
   else None)%N.

Definition hex4 (a b c d : char) : option N :=
  match hex_digit a, hex_digit b, hex_digit c, hex_digit d with
  | Some x, Some y, Some z, Some w => Some (((x * 16 + y) * 16 + z) * 16 + w)%N
  | _, _, _, _ => None
  end.

Definition is_high_surrogate (c : N) : bool := ((55296 <=? c) && (c <=? 56319))%N.
Definition is_low_surrogate (c : N) : bool := ((56320 <=? c) && (c <=? 57343))%N.
Definition join_surrogates (hi lo : N) : N :=
  (65536 + (hi - 55296) * 1024 + (lo - 56320))%N.

(** The character a one-letter escape stands for. *)
Definition unescape (c : char) : option char :=
  (if (c =? DQUOTE) || (c =? BACKSLASH) || (c =? ch "/") then Some c
   else if c =? ch "b" then Some 8
   else if c =? ch "f" then Some 12
   else if c =? ch "n" then Some 10
   else if c =? ch "r" then Some 13
   else if c =? ch "t" then Some 9
   else None)%N.

(** [scanstring]: the text after an opening quote, up to the closing one.
    [acc] holds the decoded characters, last first.  A [\u] escape needs
    four hexadecimal digits and one more character after them; a high
    surrogate is joined with a low one that follows as a second escape. *)
Fixpoint scanstring (s : text) (acc : text) : result (text * text) :=
  match s with
  | [] => Raise JSONDecodeError
  | c :: r =>
      if (c =? DQUOTE)%N then Ok (rev acc, r)
      else if (c =? BACKSLASH)%N then
        match r with
        | [] => Raise JSONDecodeError
        | e :: r1 =>
            if (e =? ch "u")%N then
              match r1 with
              | h1 :: h2 :: h3 :: h4 :: ((_ :: _) as r2) =>
                  match hex4 h1 h2 h3 h4 with
                  | None => Raise JSONDecodeError
                  | Some c1 =>
                      if is_high_surrogate c1 then
                        match r2 with
                        | b :: u :: g1 :: g2 :: g3 :: g4 :: ((_ :: _) as r3) =>
                            if ((b =? BACKSLASH) && (u =? ch "u"))%N then
                              match hex4 g1 g2 g3 g4 with
                              | None => Raise JSONDecodeError
                              | Some c2 =>
                                  if is_low_surrogate c2
                                  then scanstring r3 (join_surrogates c1 c2 :: acc)
                                  else scanstring r2 (c1 :: acc)
                              end
                            else scanstring r2 (c1 :: acc)
                        | _ => scanstring r2 (c1 :: acc)
                        end
                      else scanstring r2 (c1 :: acc)
                  end
              | _ => Raise JSONDecodeError
              end
            else
              match unescape e with
              | Some x => scanstring r1 (x :: acc)
              | None => Raise JSONDecodeError
              end
        end
      else if (c <=? 31)%N then Raise JSONDecodeError
      else scanstring r (c :: acc)
  end.

(** The number at the head of [s], longest match: an optional minus sign;
    then a zero, or a digit from 1 to 9 and any digits; then, optionally, a
    dot and at least one digit; then, optionally, [e] or [E], an optional
    sign and at least one digit.  The result is an [int] when there is
    neither fraction nor exponent, a [float] otherwise. *)
Definition match_number (s : text) : result (value * text) :=
  let '(neg, s1) :=
    match s with
    | c :: r => if (c =? ch "-")%N then (true, r) else (false, s)
    | [] => (false, s)
    end in
  let int_part :=
    match s1 with
    | [] => None
    | c :: r =>
        if ((49 <=? c) && (c <=? 57))%N
        then let '(ds, r1) := span_digits r in Some (c :: ds, r1)
        else if (c =? 48)%N then Some ([c], r)
        else None
    end in
  match int_part with
  | None => Raise StopIteration
  | Some (ids, r1) =>
      let '(frac, r2) :=
        match r1 with
        | dot :: d :: r' =>
            if ((dot =? ch ".")%N && is_digit d)%bool
            then let '(ds, r'') := span_digits r' in (Some (d :: ds), r'')
            else (None, r1)
        | _ => (None, r1)
        end in
      let '(expo, r3) :=
        match r2 with
        | e :: r' =>
            if ((e =? ch "e") || (e =? ch "E"))%N then
              let '(eneg, r'') :=
                match r' with
                | sg :: ((_ :: _) as t) =>
                    if (sg =? ch "-")%N then (true, t)
                    else if (sg =? ch "+")%N then (false, t)
                    else (false, r')
                | _ => (false, r')
                end in
              let '(ds, r''') := span_digits r'' in
              match ds with
              | [] => (None, r2)
              | _ :: _ =>
                  (Some (if eneg then - digits_value ds else digits_value ds),
                   r''')
              end
            else (None, r2)
        | [] => (None, r2)
        end in
      match frac, expo with
      | None, None =>
          Ok (VInt (if neg then - digits_value ids else digits_value ids), r3)
      | _, _ =>
          let fds := match frac with Some ds => ds | None => [] end in
          let ex := match expo with Some x => x | None => 0 end in
          Ok (VFloat (float_of_decimal neg (digits_value (ids ++ fds))
                        (ex - Z.of_nat (List.length fds))), r3)
      end
  end.

(** [scan_once] reads one JSON term at the head of [s] and returns it with
    the text that follows.  [object_members] and [array_items] are the loops
    of the decoder over the members of an object and the items of an array;
    they start where a member or an item is expected.  Each call and each
    turn of a loop takes one unit of [fuel]. *)
Fixpoint scan_once (fuel : nat) (s : text) {struct fuel} : result (value * text) :=
  match fuel with
  | O => Raise FuelExhausted
  | S n =>
      match s with
      | [] => Raise StopIteration
      | c :: r =>
          if (c =? DQUOTE)%N then
            match scanstring r [] with
            | Ok (str, r') => Ok (VStr str, r')
            | Raise e => Raise e
            end
          else if (c =? ch "{")%N then
            let s1 := skip_ws r in
            if starts_with (lit "}") s1 then Ok (VDict [], skipn 1 s1)
            else object_members n s1 []
          else if (c =? ch "[")%N then
            let s1 := skip_ws r in
            if starts_with (lit "]") s1 then Ok (VList [], skipn 1 s1)
            else array_items n s1 []
          else if starts_with (lit "null") s then Ok (VNone, skipn 4 s)
          else if starts_with (lit "true") s then Ok (VBool true, skipn 4 s)
          else if starts_with (lit "false") s then Ok (VBool false, skipn 5 s)
          else if starts_with (lit "NaN") s then Ok (VFloat S754_nan, skipn 3 s)
          else if starts_with (lit "Infinity") s
          then Ok (VFloat (S754_infinity false), skipn 8 s)
          else if starts_with (lit "-Infinity") s
          then Ok (VFloat (S754_infinity true), skipn 9 s)
          else match_number s
      end
  end

with object_members (fuel : nat) (s : text) (acc : dict) {struct fuel}
  : result (value * text) :=
  match fuel with
  | O => Raise FuelExhausted
  | S n =>
      match s with
      | [] => Raise JSONDecodeError
      | c :: r =>
          if (c =? DQUOTE)%N then
            match scanstring r [] with
            | Raise e => Raise e
            | Ok (key, r1) =>
                match skip_ws r1 with
                | [] => Raise JSONDecodeError
                | c2 :: r2 =>
                    if (c2 =? ch ":")%N then
                      match scan_once n (skip_ws r2) with
                      | Raise e => Raise e
                      | Ok (v, r3) =>
                          let acc' := dict_set acc key v in
                          match skip_ws r3 with
                          | [] => Raise JSONDecodeError
                          | c4 :: r4 =>
                              if (c4 =? ch "}")%N then Ok (VDict acc', r4)
                              else if (c4 =? ch ",")%N
                              then object_members n (skip_ws r4) acc'
                              else Raise JSONDecodeError
                          end
                      end
                    else Raise JSONDecodeError
                end
            end
          else Raise JSONDecodeError
      end
  end

with array_items (fuel : nat) (s : text) (acc : list value) {struct fuel}
  : result (value * text) :=
  match fuel with
  | O => Raise FuelExhausted
  | S n =>
      match scan_once n s with
      | Raise e => Raise e
      | Ok (v, r1) =>
          match skip_ws r1 with
          | [] => Raise JSONDecodeError
          | c :: r2 =>
              if (c =? ch "]")%N then Ok (VList (acc ++ [v]), r2)
              else if (c =? ch ",")%N
              then array_items n (skip_ws r2) (acc ++ [v])
              else Raise JSONDecodeError
          end
      end
  end.

(** [json.loads(s)] for a [str]: a byte order mark is refused, white space
    around the term is skipped, and nothing else may follow the term. *)
Definition json_loads (s : text) : result value :=
  if starts_with [65279%N] s then Raise JSONDecodeError
  else
    let s1 := skip_ws s in
    match scan_once (2 * List.length s1 + 2) s1 with
    | Raise StopIteration => Raise JSONDecodeError
    | Raise e => Raise e
    | Ok (v, rest) =>
        match skip_ws rest with
        | [] => Ok v
        | _ :: _ => Raise JSONDecodeError
        end
    end.

(** ** The response extractor *)

Definition FENCE_JSON : text := lit "```json".
Definition FENCE : text := lit "```".

(** The text of [safe_json_parse] once trimmed and freed of fence markers. *)
Definition unfenced (raw_text : text) : text :=
  replace (replace (strip raw_text) FENCE_JSON []) FENCE [].

(** The body of the [try] of [safe_json_parse]. *)
Definition safe_json_parse_try (raw_text : text) : result value :=
  let raw_text := unfenced raw_text in
  let first := find raw_text (lit "{") in
  let last := rfind raw_text (lit "}") in
  if negb (first =? -1) && negb (last =? -1)
  then json_loads (slice raw_text first (last + 1))
  else Raise (ValueError (lit "JSON structure not found in model output.")).

(** ** What the page shows and does

    The widget library, the image library and the model provider are
    outside the program.  A call into one of them is recorded as an
    [event]; what the image library and the provider answer is given by a
    [world].  Text handed to a widget is a [display]: the pieces of an
    f-string, where the conversions done by the interpreter ([str] of an
    object, the message of an exception, Unicode case mapping) are kept as
    they are called rather than computed. *)

Inductive piece : Type :=
| Lit (s : text)              (* literal text, or text computed here *)
| StrOf (v : value)           (* [str(v)] *)
| ErrOf (e : exn)             (* [str(e)] *)
| Capitalized (s : text)      (* [s.capitalize()] *)
| Uppercased (s : text).      (* [s.upper()] *)

Definition display := list piece.

Record image_part : Type := { mime_type : text; data : list N }.

Inductive event : Type :=
| StSubheader (d : display)
| StMarkdown (d : display)
| StWrite (d : display)
| StMetric (label : text) (v : display)
| StWarning (d : display)
| StInfo (d : display)
| StSuccess (d : display)
| StError (d : display)
| StCaption (d : display)
| StProgress (v : value)
| StColumns (n : nat)
| ColumnEnter (i : nat)
| ColumnLeave (i : nat)
| SpinnerEnter (d : display)
| SpinnerLeave
| ImageOpen (file : list N)
| GenerateContent (prompt : text) (image : option image_part).

Record world : Type := {
  (* [Image.open(f).convert("RGB")] saved as PNG: the bytes, or the failure *)
  pil_png : list N -> result (list N);
  (* the text of the reply of [generate_content], or the failure *)
  gemini : text -> option image_part -> result text
}.

(** A computation shows events and then returns or raises. *)
Definition M (A : Type) : Type := (list event * result A)%type.

Definition ret {A} (a : A) : M A := ([], Ok a).
Definition raise {A} (e : exn) : M A := ([], Raise e).
Definition lift {A} (r : result A) : M A := ([], r).
Definition emit (e : event) : M unit := ([e], Ok tt).

Definition bind {A B} (m : M A) (k : A -> M B) : M B :=
  match m with
  | (es, Ok a) => let '(es', r) := k a in (es ++ es', r)
  | (es, Raise e) => (es, Raise e)
  end.

(** [try: m except Exception as e: h e] *)
Definition try_except {A} (m : M A) (h : exn -> M A) : M A :=
  match m with
  | (es, Ok a) => (es, Ok a)
  | (es, Raise e) => let '(es', r) := h e in (es ++ es', r)
  end.

(** [with ctx: m], where entering and leaving the context are events; the
    context is left also when [m] raises. *)
Definition with_block {A} (enter leave : event) (m : M A) : M A :=
  let '(es, r) := m in (enter :: es ++ [leave], r).

Declare Scope m_scope.
Delimit Scope m_scope with m.
Notation "x <- m ;; k" := (bind m (fun x => k))
  (at level 61, m at next level, right associativity) : m_scope.
Notation "m ;; k" := (bind m (fun _ => k))
  (at level 61, right associativity) : m_scope.

(** [for x in l: body x] *)
Fixpoint for_each {A} (l : list A) (body : A -> M unit) : M unit :=
  match l with
  | [] => ret tt
  | x :: l' => bind (body x) (fun _ => for_each l' body)
  end.

(** [safe_json_parse]: the parsed object, or a warning and [None]. *)
Definition safe_json_parse (raw_text : text) : M (option value) :=
  try_except
    (bind (lift (safe_json_parse_try raw_text)) (fun v => ret (Some v)))
    (fun e =>
       bind (emit (StWarning [Lit (lit "⚠️ JSON parsing failed: "); ErrOf e]))
            (fun _ => ret None)).

(** ** The prompt builder *)

(** A value of the profile: the widgets give an [int] or a [str]. *)
Inductive field : Type :=
| FInt (z : Z)
| FStr (s : text).

(** [str(z)] for an [int] *)
Definition str_of_int (z : Z) : text :=
  lit (DecimalString.NilZero.string_of_int (Z.to_int z)).

(** [str(v)], as an f-string inserts it *)
Definition str_of_field (v : field) : text :=
  match v with
  | FInt z => str_of_int z
  | FStr s => s
  end.

Definition profile := list (text * field).

(** [extra_user_info.get(key, default)] inside an f-string *)
Definition profile_get (extra_user_info : profile) (key default : text) : text :=
  match dict_get extra_user_info key with
  | Some v => str_of_field v
  | None => default
  end.

Definition user_context (extra_user_info : profile) : text :=
  lit "User: " ++ profile_get extra_user_info (lit "age") (lit "?")
  ++ lit " yrs, "
  ++ profile_get extra_user_info (lit "gender") (lit "unspecified")
  ++ lit ", height " ++ profile_get extra_user_info (lit "height_cm") (lit "?")
  ++ lit " cm, weight " ++ profile_get extra_user_info (lit "weight_kg") (lit "?")
  ++ lit " kg, activity: "
  ++ profile_get extra_user_info (lit "activity_level") (lit "unspecified")
  ++ lit ", dietary_preferences: "
  ++ profile_get extra_user_info (lit "dietary_pref") (lit "none")
  ++ lit ", allergies: "
  ++ profile_get extra_user_info (lit "allergies") (lit "none")
  ++ lit ".".

(** The three constant parts of the template, in which an apostrophe
    stands for a double quote. *)
Definition PROMPT_HEAD : text := litq "
You are a nutrition expert. Analyze the dish '".

Definition PROMPT_FORMAT : text := litq "' and return **valid JSON only**.

The JSON must follow exactly this format:
{
  'dish_name': string,
  'ingredients': [string],
  'estimated_serving_g': number,
  'calories_kcal': number,
  'macros': {
    'carbs_g': number,
    'protein_g': number,
    'fat_g': number,
    'fiber_g': number
  },
  'micros': {
    'vitamin_a_ug': number,
    'vitamin_c_mg': number,
    'calcium_mg': number,
    'iron_mg': number,
    'sodium_mg': number
  },
  'allergens': [string],
  'confidence': {
    'overall': number,
    'calories': number,
    'ingredients': number
  },
  'portion_recommendation': {
    'amount_g': number,
    'frequency': string
  },
  'healthiness_verdict': {
    'rating': string,
    'explanation': string
  },
  'advice': [string]
}

User context:
".

Definition PROMPT_TAIL : text := litq "

Dish context: include nutrition, portion, allergens, and health advice.
Return only valid JSON — no markdown, no code fences, no explanation outside JSON.
".

Definition build_prompt (dish_name : text) (extra_user_info : profile) : text :=
  let prompt :=
    PROMPT_HEAD ++ dish_name ++ PROMPT_FORMAT
    ++ user_context extra_user_info ++ PROMPT_TAIL in
  strip prompt.

(** ** Operations of the interpreter on decoded values *)

(** [bool(v)] *)
Definition truthy (v : value) : bool :=
  match v with
  | VNone => false
  | VBool b => b
  | VInt z => negb (z =? 0)
  | VFloat (S754_zero _) => false
  | VFloat _ => true
  | VStr s => match s with [] => false | _ :: _ => true end
  | VList l => match l with [] => false | _ :: _ => true end
  | VDict d => match d with [] => false | _ :: _ => true end
  end.

(** [v.get(key, default)]: only a [dict] has the method. *)
Definition py_get (v : value) (key : text) (default : value) : result value :=
  match v with
  | VDict d => Ok (dict_get_default d key default)
  | _ => Raise AttributeError
  end.

(** [v[key]] for a key that is a [str] *)
Definition py_getitem (v : value) (key : text) : result value :=
  match v with
  | VDict d =>
      match dict_get d key with
      | Some x => Ok x
      | None => Raise KeyError
      end
  | _ => Raise TypeError
  end.

(** [v.items()] *)
Definition py_items (v : value) : result (list (text * value)) :=
  match v with
  | VDict d => Ok d
  | _ => Raise AttributeError
  end.

(** The elements [for x in v] goes through: the items of a [list], the
    characters of a [str], the keys of a [dict]. *)
Definition py_iter (v : value) : result (list value) :=
  match v with
  | VList l => Ok l
  | VStr s => Ok (map (fun c => VStr [c]) s)
  | VDict d => Ok (map (fun kv => VStr (fst kv)) d)
  | _ => Raise TypeError
  end.

Fixpoint all_str (l : list value) : result (list text) :=
  match l with
  | [] => Ok []
  | VStr s :: r =>
      match all_str r with
      | Ok ts => Ok (s :: ts)
      | Raise e => Raise e
      end
  | _ :: _ => Raise TypeError
  end.

(** [sep.join(v)]: [v] must be iterable and yield only [str]. *)
Definition py_join (sep : text) (v : value) : result text :=
  match py_iter v with
  | Raise e => Raise e
  | Ok items =>
      match all_str items with
      | Raise e => Raise e
      | Ok ts => Ok (join sep ts)
      end
  end.

(** [v.upper()]: only a [str] has the method. *)
Definition py_upper (v : value) : result piece :=
  match v with
  | VStr s => Ok (Uppercased s)
  | _ => Raise AttributeError
  end.

(** [int] to [float]: the nearest binary64 value; too large an [int]
    raises. *)
Definition float_of_int (z : Z) : result spec_float :=
  match binary_normalize prec emax z 0 false with
  | S754_infinity _ => Raise OverflowError
  | f => Ok f
  end.

Definition HUNDRED : spec_float := binary_normalize prec emax 100 0 false.

(** [v * 100] *)
Definition py_times_100 (v : value) : result value :=
  match v with
  | VInt z => Ok (VInt (z * 100))
  | VBool b => Ok (VInt (if b then 100 else 0))
  | VFloat f => Ok (VFloat (SFmul prec emax f HUNDRED))
  | VStr s => Ok (VStr (List.concat (repeat s 100)))
  | VList l => Ok (VList (List.concat (repeat l 100)))
  | VNone | VDict _ => Raise TypeError
  end.

Definition str_of_nat_Z (z : Z) : text :=
  lit (NilZero.string_of_uint (N.to_uint (Z.to_N z))).

(** [format(f, ".0f")] for a [float]: the value rounded to an integer, ties
    to even, with its sign. *)
Definition format_float_0f (f : spec_float) : text :=
  match f with
  | S754_nan => lit "nan"
  | S754_infinity s => if s then lit "-inf" else lit "inf"
  | S754_zero s => if s then lit "-0" else lit "0"
  | S754_finite s m e =>
      let n :=
        if 0 <=? e then Zpos m * 2 ^ e
        else
          let d := 2 ^ (- e) in
          let q := Zpos m / d in
          let r := Zpos m mod d in
          match 2 * r ?= d with
          | Lt => q
          | Gt => q + 1
          | Eq => if Z.even q then q else q + 1
          end in
      (if s then lit "-" else []) ++ str_of_nat_Z n
  end.

(** [format(v, ".0f")], as [{v:.0f}] in an f-string *)
Definition py_format_0f (v : value) : result text :=
  match v with
  | VFloat f => Ok (format_float_0f f)
  | VInt z =>
      match float_of_int z with
      | Ok f => Ok (format_float_0f f)
      | Raise e => Raise e
      end
  | VBool b => Ok (if b then lit "1" else lit "0")
  | VStr _ => Raise (ValueError (lit "Unknown format code 'f' for object of type 'str'"))
  | VNone | VList _ | VDict _ => Raise TypeError
  end.

(** [st.progress(v)]: the widget takes an [int] from 0 to 100 or a [float]
    from 0.0 to 1.0 and raises for anything else.  (Some versions of the
    widget also let a [float] pass that misses a bound by at most 1e-9;
    this is not modelled.) *)
Definition st_progress (v : value) : M unit :=
  let ok :=
    match v with
    | VInt z => (0 <=? z) && (z <=? 100)
    | VBool _ => true
    | VFloat f =>
        SFleb (S754_zero false) f
        && SFleb f (binary_normalize prec emax 1 0 false)
    | _ => false
    end in
  if ok then emit (StProgress v) else raise StreamlitAPIException.

(** ** The report renderer: the branch of the page taken for a parsed reply *)

Local Open Scope m_scope.

Definition ZERO : value := VFloat (S754_zero false).

Definition show_macro (kv : text * value) : M unit :=
  let '(k, v) := kv in
  emit (StWrite [Lit (lit "**"); Capitalized (replace k (lit "_g") []);
                 Lit (lit "**: "); StrOf v; Lit (lit " g")]).

Definition show_micro (kv : text * value) : M unit :=
  let '(k, v) := kv in
  let unit := if contains (lit "mg") k then lit "mg" else lit "µg" in
  let label :=
    Capitalized
      (replace (replace (replace k (lit "_mg") []) (lit "_ug") [])
         (lit "_") (lit " ")) in
  emit (StWrite [Lit (lit "**"); label; Lit (lit "**: "); StrOf v;
                 Lit (lit " "); Lit unit]).

Definition show_serving_and_macros (parsed_json : value) : M unit :=
  emit (StMarkdown [Lit (lit "#### ⚖️ Serving & Calories")]) ;;
  serving <- lift (py_get parsed_json (lit "estimated_serving_g") (VInt 0)) ;;
  emit (StMetric (lit "Estimated Serving") [StrOf serving; Lit (lit " g")]) ;;
  calories <- lift (py_get parsed_json (lit "calories_kcal") (VInt 0)) ;;
  emit (StMetric (lit "Calories") [StrOf calories; Lit (lit " kcal")]) ;;
  emit (StMarkdown [Lit (lit "#### 💪 Macros (per serving)")]) ;;
  macros <- lift (py_get parsed_json (lit "macros") (VDict [])) ;;
  items <- lift (py_items macros) ;;
  for_each items show_macro.

Definition show_micros (parsed_json : value) : M unit :=
  emit (StMarkdown [Lit (lit "#### 🧬 Micronutrients")]) ;;
  micros <- lift (py_get parsed_json (lit "micros") (VDict [])) ;;
  items <- lift (py_items micros) ;;
  for_each items show_micro.

Definition show_allergens (parsed_json : value) : M unit :=
  emit (StMarkdown [Lit (lit "#### ⚠️ Allergens")]) ;;
  allergens <- lift (py_get parsed_json (lit "allergens") VNone) ;;
  if truthy allergens then
    again <- lift (py_getitem parsed_json (lit "allergens")) ;;
    joined <- lift (py_join (lit ", ") again) ;;
    emit (StWarning [Lit joined])
  else emit (StWrite [Lit (lit "None")]).

Definition show_confidence (parsed_json : value) : M unit :=
  emit (StMarkdown [Lit (lit "#### 📊 Confidence")]) ;;
  conf <- lift (py_get parsed_json (lit "confidence") (VDict [])) ;;
  overall <- lift (py_get conf (lit "overall") ZERO) ;;
  st_progress overall ;;
  calories <- lift (py_get conf (lit "calories") ZERO) ;;
  calories100 <- lift (py_times_100 calories) ;;
  calories_pct <- lift (py_format_0f calories100) ;;
  ingredients <- lift (py_get conf (lit "ingredients") ZERO) ;;
  ingredients100 <- lift (py_times_100 ingredients) ;;
  ingredients_pct <- lift (py_format_0f ingredients100) ;;
  emit (StCaption [Lit (lit "Calories confidence: "); Lit calories_pct;
                   Lit (lit "% | Ingredients confidence: ");
                   Lit ingredients_pct; Lit (lit "%")]).

Definition show_portion (parsed_json : value) : M unit :=
  emit (StMarkdown [Lit (lit "#### 🕒 Portion Recommendation")]) ;;
  portion <- lift (py_get parsed_json (lit "portion_recommendation") (VDict [])) ;;
  amount <- lift (py_get portion (lit "amount_g") (VStr (lit "?"))) ;;
  frequency <- lift (py_get portion (lit "frequency") (VStr (lit "No suggestion"))) ;;
  emit (StInfo [Lit (lit "**"); StrOf amount; Lit (lit " g** — ");
                StrOf frequency]).

Definition show_verdict (parsed_json : value) : M unit :=
  emit (StMarkdown [Lit (lit "#### ❤️ Healthiness Verdict")]) ;;
  verdict <- lift (py_get parsed_json (lit "healthiness_verdict") (VDict [])) ;;
  rating <- lift (py_get verdict (lit "rating") (VStr (lit "-"))) ;;
  explanation <- lift (py_get verdict (lit "explanation") (VStr [])) ;;
  emit (StSuccess [Lit (lit "**"); StrOf rating; Lit (lit "** — ");
                   StrOf explanation]).

Definition show_advice (parsed_json : value) : M unit :=
  emit (StMarkdown [Lit (lit "#### 💡 Advice")]) ;;
  advice <- lift (py_get parsed_json (lit "advice") (VList [])) ;;
  tips <- lift (py_iter advice) ;;
  for_each tips (fun tip => emit (StWrite [Lit (lit "- "); StrOf tip])).

Definition show_verdict_again (parsed_json : value) : M unit :=
  verdict <- lift (py_get parsed_json (lit "healthiness_verdict") (VDict [])) ;;
  if truthy verdict then
    rating <- lift (py_get verdict (lit "rating") (VStr (lit "—"))) ;;
    upper <- lift (py_upper rating) ;;
    explanation <- lift (py_get verdict (lit "explanation") (VStr [])) ;;
    emit (StInfo [Lit (lit "**Verdict: "); upper; Lit (lit "** — ");
                  StrOf explanation])
  else ret tt.

Definition show_dish_and_ingredients (parsed_json : value) : M unit :=
  dish <- lift (py_get parsed_json (lit "dish_name") (VStr (lit "Unknown"))) ;;
  emit (StMarkdown [Lit (lit "### 🍽️ Dish: **"); StrOf dish; Lit (lit "**")]) ;;
  emit (StMarkdown [Lit (lit "#### 🧂 Ingredients")]) ;;
  ingredients <- lift (py_get parsed_json (lit "ingredients") (VList [])) ;;
  joined <- lift (py_join (lit ", ") ingredients) ;;
  emit (StWrite [Lit joined]).

Definition render_report (parsed_json : value) : M unit :=
  emit (StSubheader [Lit (lit "✅ Nutrition Summary (Estimated)")]) ;;
  show_dish_and_ingredients parsed_json ;;
  emit (StColumns 2) ;;
  with_block (ColumnEnter 0) (ColumnLeave 0)
    (show_serving_and_macros parsed_json) ;;
  with_block (ColumnEnter 1) (ColumnLeave 1) (show_micros parsed_json) ;;
  show_allergens parsed_json ;;
  show_confidence parsed_json ;;
  show_portion parsed_json ;;
  show_verdict parsed_json ;;
  show_advice parsed_json ;;
  show_verdict_again parsed_json.

(** ** The analysis handler: what a run of the page does once the form is
    read *)

Record form : Type := {
  analyze : bool;
  dish_name : text;
  uploaded_file : option (list N);
  notes : text;
  age : Z;
  gender : text;
  height_cm : Z;
  weight_kg : Z;
  activity : text;
  diet_pref : text;
  allergies : text
}.

Definition nonempty (s : text) : bool :=
  match s with
  | [] => false
  | _ :: _ => true
  end.

Definition prepare_image (w : world) (file : list N) : M (option image_part) :=
  try_except
    (emit (ImageOpen file) ;;
     image_bytes <- lift (pil_png w file) ;;
     ret (Some {| mime_type := lit "image/png"; data := image_bytes |}))
    (fun e =>
       emit (StWarning [Lit (lit "⚠️ Could not process image: "); ErrOf e]) ;;
       ret None).

Definition call_gemini (w : world) (prompt : text) (image : option image_part)
  : M text :=
  emit (GenerateContent prompt image) ;;
  lift (gemini w prompt image).

(** The [else] branch: a notice and the reply as it came. *)
Definition show_raw (response_text : text) : M unit :=
  emit (StWarning [Lit (lit "Could not parse JSON. Displaying full output:")]) ;;
  emit (StWrite [Lit response_text]).

(** [if parsed_json: ... else: ...] *)
Definition show_result (parsed_json : option value) (response_text : text)
  : M unit :=
  match parsed_json with
  | Some v => if truthy v then render_report v else show_raw response_text
  | None => show_raw response_text
  end.

(** From the reply of the model to what is shown for it. *)
Definition respond (response_text : text) : M unit :=
  parsed_json <- safe_json_parse response_text ;;
  show_result parsed_json response_text.

Definition user_info_of (f : form) : profile :=
  [ (lit "age", FInt (age f));
    (lit "gender", FStr (gender f));
    (lit "height_cm", FInt (height_cm f));
    (lit "weight_kg", FInt (weight_kg f));
    (lit "activity_level", FStr (activity f));
    (lit "dietary_pref", FStr (diet_pref f));
    (lit "allergies", FStr (allergies f)) ].

(** The prompt that is sent: the built one, then the notes if there are
    any. *)
Definition full_prompt (f : form) : text :=
  let user_info := user_info_of f in
  let prompt := build_prompt (dish_name f) user_info in
  if nonempty (strip (notes f))
  then prompt ++ lit "
Additional context: " ++ strip (notes f)
  else prompt.

Definition run_analysis (w : world) (f : form) : M unit :=
  if analyze f then
    if negb (nonempty (dish_name f)
             || match uploaded_file f with Some _ => true | None => false end)
    then emit (StWarning [Lit (lit "Please provide a dish name or upload an image.")])
    else
      let prompt := full_prompt f in
      image_part <-
        match uploaded_file f with
        | Some file => prepare_image w file
        | None => ret None
        end ;;
      with_block (SpinnerEnter [Lit (lit "Analyzing... please wait ⏳")])
        SpinnerLeave
        (try_except
           (response_text <- call_gemini w prompt image_part ;;
            respond response_text)
           (fun e => emit (StError [Lit (lit "❌ Error: "); ErrOf e])))
  else ret tt.

(** The model calls among the events of a run. *)
Fixpoint model_calls (es : list event) : list (text * option image_part) :=
  match es with
  | [] => []
  | GenerateContent prompt image :: r => (prompt, image) :: model_calls r
  | _ :: r => model_calls r
  end.

Local Close Scope m_scope.

(** ** Inputs of the scenarios *)

(** The reply of the scenario: a sentence, a fenced block, the object. *)
Definition IDLI_REPLY : text :=
  lit "Sure! ```json
" ++ litq "{'dish_name':'Idli','calories_kcal':120}" ++ lit "
```".

Definition IDLI_RECORD : value :=
  VDict [(lit "dish_name", VStr (lit "Idli")); (lit "calories_kcal", VInt 120)].

(** An object whose string value holds a fence marker, and a reply that
    fences it. *)
Definition FENCE_VALUE_OBJECT : text := litq "{'tip':'wrap code in ```'}".

Definition FENCE_VALUE_REPLY : text :=
  lit "```json
" ++ FENCE_VALUE_OBJECT ++ lit "
```".

(** A reply whose prose has braces of its own before the object. *)
Definition BRACES_OBJECT : text := litq "{'a':1}".

Definition BRACES_REPLY : text := lit "Fill {name} in: " ++ BRACES_OBJECT.

(** What the prompt must carry: the two sentences that ask for JSON only
    and the template of the report. *)
Definition JSON_ONLY_DIRECTIVE : text := lit "return **valid JSON only**".

Definition NO_FENCE_DIRECTIVE : text :=
  lit "Return only valid JSON — no markdown, no code fences, no explanation outside JSON.".

Definition SCHEMA_TEMPLATE : text := litq "The JSON must follow exactly this format:
{
  'dish_name': string,
  'ingredients': [string],
  'estimated_serving_g': number,
  'calories_kcal': number,
  'macros': {
    'carbs_g': number,
    'protein_g': number,
    'fat_g': number,
    'fiber_g': number
  },
  'micros': {
    'vitamin_a_ug': number,
    'vitamin_c_mg': number,
    'calcium_mg': number,
    'iron_mg': number,
    'sodium_mg': number
  },
  'allergens': [string],
  'confidence': {
    'overall': number,
    'calories': number,
    'ingredients': number
  },
  'portion_recommendation': {
    'amount_g': number,
    'frequency': string
  },
  'healthiness_verdict': {
    'rating': string,
    'explanation': string
  },
  'advice': [string]
}".

(** The fields of the profile with the text around them in the context
    clause and the placeholder of each: key, text before, placeholder, text
    after. *)
Definition PROFILE_SLOTS : list (text * text * text * text) :=
  [ (lit "age", lit "User: ", lit "?", lit " yrs, ");
    (lit "gender", lit " yrs, ", lit "unspecified", lit ", height ");
    (lit "height_cm", lit ", height ", lit "?", lit " cm, weight ");
    (lit "weight_kg", lit " cm, weight ", lit "?", lit " kg, activity: ");
    (lit "activity_level", lit " kg, activity: ", lit "unspecified",
     lit ", dietary_preferences: ");
    (lit "dietary_pref", lit ", dietary_preferences: ", lit "none",
     lit ", allergies: ");
    (lit "allergies", lit ", allergies: ", lit "none", lit ".") ].

(** ** The shape of a report with fields left out *)

Definition is_str (v : value) : bool :=
  match v with VStr _ => true | _ => false end.

Definition is_number (v : value) : bool :=
  match v with VInt _ | VFloat _ => true | _ => false end.

Definition ONE : spec_float := binary_normalize prec emax 1 0 false.

(** A number from 0 to 1. *)
Definition is_unit_number (v : value) : bool :=
  match v with
  | VInt z => (0 <=? z) && (z <=? 1)
  | VFloat f => SFleb (S754_zero false) f && SFleb f ONE
  | _ => false
  end.

Definition is_str_list (v : value) : bool :=
  match v with VList l => forallb is_str l | _ => false end.

(** A [dict] all of whose entries pass [check]. *)
Definition is_dict_of (check : text -> value -> bool) (v : value) : bool :=
  match v with
  | VDict d => forallb (fun kv => check (fst kv) (snd kv)) d
  | _ => false
  end.

Definition key_in (k : text) (keys : list string) : bool :=
  existsb (fun s => text_eqb k (lit s)) keys.

Definition confidence_field (k : text) (v : value) : bool :=
  if key_in k ["overall"; "calories"; "ingredients"]%string
  then is_unit_number v else true.

Definition portion_field (k : text) (v : value) : bool :=
  if key_in k ["amount_g"]%string then is_number v
  else if key_in k ["frequency"]%string then is_str v
  else true.

Definition verdict_field (k : text) (v : value) : bool :=
  if key_in k ["rating"; "explanation"]%string then is_str v else true.

(** What the report shape asks of the field [k] when it is there. *)
Definition report_field (k : text) (v : value) : bool :=
  if key_in k ["dish_name"]%string then is_str v
  else if key_in k ["ingredients"; "allergens"; "advice"]%string
  then is_str_list v
  else if key_in k ["estimated_serving_g"; "calories_kcal"]%string
  then is_number v
  else if key_in k ["macros"; "micros"]%string
  then is_dict_of (fun _ x => is_number x) v
  else if key_in k ["confidence"]%string then is_dict_of confidence_field v
  else if key_in k ["portion_recommendation"]%string
  then is_dict_of portion_field v
  else if key_in k ["healthiness_verdict"]%string
  then is_dict_of verdict_field v
  else true.

(** A report of which any fields, at the top or inside a sub-record, may
    be missing: every field that is there has the type of the shape. *)
Definition partial_report (d : dict) : bool :=
  forallb (fun kv => report_field (fst kv) (snd kv)) d.

(** The field [k] is missing. *)
Definition absent (d : dict) (k : string) : Prop :=
  dict_get d (lit k) = None.

(** The field [sub] of the sub-record [k] is missing, with the sub-record
    or alone. *)
Definition sub_absent (d : dict) (k sub : string) : Prop :=
  match dict_get d (lit k) with
  | None => True
  | Some (VDict s) => dict_get s (lit sub) = None
  | Some _ => False
  end.

(** The advice lines among the events. *)
Fixpoint tips_shown (es : list event) : list value :=
  match es with
  | [] => []
  | StWrite [Lit dash; StrOf tip] :: r =>
      if text_eqb dash (lit "- ") then tip :: tips_shown r else tips_shown r
  | _ :: r => tips_shown r
  end.

(** Every missing field is shown with its default. *)
Definition defaults_shown (d : dict) (es : list event) : Prop :=
  (absent d "dish_name" ->
   In (StMarkdown [Lit (lit "### 🍽️ Dish: **"); StrOf (VStr (lit "Unknown"));
                   Lit (lit "**")]) es)
  /\ (absent d "ingredients" -> In (StWrite [Lit (join (lit ", ") [])]) es)
  /\ (absent d "estimated_serving_g" ->
      In (StMetric (lit "Estimated Serving") [StrOf (VInt 0); Lit (lit " g")]) es)
  /\ (absent d "calories_kcal" ->
      In (StMetric (lit "Calories") [StrOf (VInt 0); Lit (lit " kcal")]) es)
  /\ (absent d "advice" -> tips_shown es = [])
  /\ (sub_absent d "confidence" "overall" -> In (StProgress ZERO) es)
  /\ (sub_absent d "confidence" "calories" ->
      exists x,
        In (StCaption [Lit (lit "Calories confidence: "); Lit (lit "0");
                       Lit (lit "% | Ingredients confidence: "); Lit x;
                       Lit (lit "%")]) es)
  /\ (sub_absent d "confidence" "ingredients" ->
      exists x,
        In (StCaption [Lit (lit "Calories confidence: "); Lit x;
                       Lit (lit "% | Ingredients confidence: "); Lit (lit "0");
                       Lit (lit "%")]) es)
  /\ (sub_absent d "portion_recommendation" "amount_g" ->
      exists frequency,
        In (StInfo [Lit (lit "**"); StrOf (VStr (lit "?"));
                    Lit (lit " g** — "); StrOf frequency]) es)
  /\ (sub_absent d "portion_recommendation" "frequency" ->
      exists amount,
        In (StInfo [Lit (lit "**"); StrOf amount; Lit (lit " g** — ");
                    StrOf (VStr (lit "No suggestion"))]) es)
  /\ (sub_absent d "healthiness_verdict" "rating" ->
      exists explanation,
        In (StSuccess [Lit (lit "**"); StrOf (VStr (lit "-"));
                       Lit (lit "** — "); StrOf explanation]) es)
  /\ (sub_absent d "healthiness_verdict" "explanation" ->
      exists rating,
        In (StSuccess [Lit (lit "**"); StrOf rating; Lit (lit "** — ");
                       StrOf (VStr [])]) es).

(** A reply that is the empty object, and a report with two fields. *)
Definition EMPTY_OBJECT_REPLY : text := lit "{}".

Definition TWO_FIELD_REPORT : dict :=
  [(lit "dish_name", VStr (lit "Idli")); (lit "calories_kcal", VInt 120)].

(** A world in which no image decodes and the model answers with the reply
    of the scenario; a form with a dish name and no image. *)
Definition SCENARIO_WORLD : world :=
  {| pil_png := fun _ => Raise (ValueError (lit "cannot identify image file"));
     gemini := fun _ _ => Ok IDLI_REPLY |}.

Definition IDLI_FORM : form :=
  {| analyze := true; dish_name := lit "idli"; uploaded_file := None;
     notes := []; age := 25; gender := lit "unspecified"; height_cm := 170;
     weight_kg := 70; activity := lit "sedentary"; diet_pref := lit "none";
     allergies := [] |}.

Definition EMPTY_FORM : form :=
  {| analyze := true; dish_name := []; uploaded_file := None;
     notes := []; age := 25; gender := lit "unspecified"; height_cm := 170;
     weight_kg := 70; activity := lit "sedentary"; diet_pref := lit "none";
     allergies := [] |}.

(** The floats that the decoder builds for [0.83] and [0.7]. *)
Definition F083 : spec_float := float_of_decimal false 83 (-2).
Definition F07 : spec_float := float_of_decimal false 7 (-1).

(** A reply that gives the overall and the calories confidence. *)
Definition CONFIDENCE_REPLY : text :=
  litq "{'confidence': {'overall': 0.83, 'calories': 0.7}}".

Definition CONFIDENCE_FIELDS : dict :=
  [(lit "overall", VFloat F083); (lit "calories", VFloat F07)].

Definition CONFIDENCE_RECORD : dict :=
  [(lit "confidence", VDict CONFIDENCE_FIELDS)].

(** The text of a display made of literal pieces. *)
Definition literal_text (d : display) : text :=
  flat_map (fun p => match p with Lit s => s | _ => [] end) d.

(** The captions among the events, as text. *)
Fixpoint captions (es : list event) : list text :=
  match es with
  | [] => []
  | StCaption d :: r => literal_text d :: captions r
  | _ :: r => captions r
  end.

(** ** Predicates of the proofs *)

(** A computation that calls the model nowhere. *)
Definition quiet {A} (m : M A) : Prop := model_calls (fst m) = [].

(** What is asked of a scanner on the text [s]: a result comes with a
    shorter text, and the budget is not what stops it. *)
Definition consumes (s : text) (o : result (value * text)) : Prop :=
  (forall v r, o = Ok (v, r) -> (List.length r < List.length s)%nat)
  /\ o <> Raise FuelExhausted.

(** ** The steps of a run *)

(** [prepare_image(uploaded_file) if uploaded_file else None] *)
Definition image_step (w : world) (f : form) : M (option image_part) :=
  match uploaded_file f with
  | Some file => prepare_image w file
  | None => ret None
  end.

(** The form has a dish name or an image. *)
Definition has_input (f : form) : bool :=
  nonempty (dish_name f)
  || match uploaded_file f with Some _ => true | None => false end.

Definition SPINNER : event :=
  SpinnerEnter [Lit (lit "Analyzing... please wait ⏳")].

(** The [try] of the handler: the call, what is shown for the reply, and
    the error box for whatever is raised in between. *)
Definition guarded_call (w : world) (prompt : text) (image : option image_part)
  : M unit :=
  try_except
    (bind (call_gemini w prompt image) respond)
    (fun e => emit (StError [Lit (lit "❌ Error: "); ErrOf e])).

(** Worlds and forms of further scenarios: a provider that fails, an
    image library that decodes, a model that declines, a model that
    answers with a number where a list belongs; a form with a photo. *)
Definition FAILING_WORLD : world :=
  {| pil_png := fun _ => Raise (ValueError (lit "cannot identify image file"));
     gemini := fun _ _ => Raise (ProviderError (lit "quota exceeded")) |}.

Definition PNG_WORLD : world :=
  {| pil_png := fun file => Ok (137%N :: 80%N :: 78%N :: 71%N :: file);
     gemini := fun _ _ => Ok IDLI_REPLY |}.

Definition REFUSAL_WORLD : world :=
  {| pil_png := fun _ => Raise (ValueError (lit "cannot identify image file"));
     gemini := fun _ _ => Ok (lit "I cannot compute this.") |}.

Definition WRONG_TYPE_REPLY : text := litq "{'dish_name':'Idli','ingredients':5}".

Definition WRONG_TYPE_WORLD : world :=
  {| pil_png := fun _ => Raise (ValueError (lit "cannot identify image file"));
     gemini := fun _ _ => Ok WRONG_TYPE_REPLY |}.

Definition PHOTO_FORM : form :=
  {| analyze := true; dish_name := []; uploaded_file := Some [1%N; 2%N; 3%N];
     notes := lit "  street food "; age := 25; gender := lit "unspecified";
     height_cm := 170; weight_kg := 70; activity := lit "sedentary";
     diet_pref := lit "none"; allergies := [] |}.

(** * Properties *)

(** ** Text lemmas *)

Lemma starts_with_single (c : char) (s : text) :
  starts_with [c] s = match s with x :: _ => (c =? x)%N | [] => false end.
Proof. destruct s; simpl; [reflexivity | apply andb_true_r]. Qed.

Lemma find_nat_single_none (c : char) (s : text) :
  ~ In c s -> find_nat [c] s = None.
Proof.
  induction s as [|x s IH]; intros Hn; [reflexivity|].
  cbn [find_nat]. rewrite starts_with_single.
  destruct (N.eqb_spec c x) as [->|Hne].
  - exfalso. apply Hn. now left.
  - rewrite IH; [reflexivity|]. intros Hin. apply Hn. now right.
Qed.

Lemma rfind_nat_single_none (c : char) (s : text) :
  ~ In c s -> rfind_nat [c] s = None.
Proof.
  induction s as [|x s IH]; intros Hn; [reflexivity|].
  cbn [rfind_nat]. rewrite IH by (intros Hin; apply Hn; now right).
  rewrite starts_with_single.
  destruct (N.eqb_spec c x) as [->|Hne]; [|reflexivity].
  exfalso. apply Hn. now left.
Qed.

Lemma find_nat_single_app (c : char) (x y : text) :
  ~ In c x -> find_nat [c] (x ++ c :: y) = Some (List.length x).
Proof.
  induction x as [|a x IH]; intros Hn.
  - cbn [app find_nat]. rewrite starts_with_single, N.eqb_refl. reflexivity.
  - cbn [app find_nat]. rewrite starts_with_single.
    destruct (N.eqb_spec c a) as [->|Hne].
    + exfalso. apply Hn. now left.
    + rewrite IH by (intros Hin; apply Hn; now right). reflexivity.
Qed.

Lemma rfind_nat_single_app (c : char) (x y : text) :
  ~ In c y -> rfind_nat [c] (x ++ c :: y) = Some (List.length x).
Proof.
  intros Hn. induction x as [|a x IH].
  - cbn [app rfind_nat]. rewrite (rfind_nat_single_none c y Hn).
    rewrite starts_with_single, N.eqb_refl. reflexivity.
  - cbn [app rfind_nat]. rewrite IH. reflexivity.
Qed.

Lemma find_nat_single_some (c : char) (s : text) (i : nat) :
  find_nat [c] s = Some i ->
  exists x y, s = x ++ c :: y /\ List.length x = i.
Proof.
  revert i. induction s as [|a s IH]; intros i; cbn [find_nat];
    rewrite starts_with_single.
  - discriminate.
  - destruct (N.eqb_spec c a) as [->|Hne].
    + intros [= <-]. now exists [], s.
    + destruct (find_nat [c] s) as [j|] eqn:E; [|discriminate].
      intros [= <-]. destruct (IH j eq_refl) as (x & y & -> & Hl).
      exists (a :: x), y. split; [reflexivity|]. simpl. now rewrite Hl.
Qed.

Lemma slice_exact (x m y : text) :
  slice (x ++ m ++ y) (Z.of_nat (List.length x))
        (Z.of_nat (List.length x + List.length m)) = m.
Proof.
  unfold slice, clamp_index. rewrite !length_app.
  set (a := List.length x). set (b := List.length m). set (c := List.length y).
  assert (Hlo : (Z.of_nat a <? 0) = false) by (apply Z.ltb_ge; lia).
  assert (Hhi : (Z.of_nat (a + b) <? 0) = false) by (apply Z.ltb_ge; lia).
  rewrite Hlo, Hhi.
  replace (Z.max 0 (Z.min (Z.of_nat (a + (b + c))) (Z.of_nat a)))
    with (Z.of_nat a) by lia.
  replace (Z.max 0 (Z.min (Z.of_nat (a + (b + c))) (Z.of_nat (a + b))))
    with (Z.of_nat (a + b)) by lia.
  replace (Z.to_nat (Z.of_nat (a + b) - Z.of_nat a)) with b by lia.
  rewrite Nat2Z.id. subst a b.
  rewrite skipn_app, Nat.sub_diag, skipn_all. cbn [app skipn].
  rewrite firstn_app, Nat.sub_diag, firstn_all. cbn [firstn].
  apply app_nil_r.
Qed.

Lemma slice_from (x r : text) (j : Z) :
  exists k, slice (x ++ r) (Z.of_nat (List.length x)) j = firstn k r.
Proof.
  unfold slice. eexists.
  replace (Z.to_nat (clamp_index (Z.of_nat (List.length (x ++ r)))
                       (Z.of_nat (List.length x))))
    with (List.length x).
  - rewrite skipn_app, Nat.sub_diag, skipn_all. reflexivity.
  - unfold clamp_index. rewrite length_app.
    assert (H : (Z.of_nat (List.length x) <? 0) = false) by (apply Z.ltb_ge; lia).
    rewrite H. lia.
Qed.

(** ** The decoder *)

Lemma object_members_dict (fuel : nat) :
  forall s acc v r, object_members fuel s acc = Ok (v, r) -> exists d, v = VDict d.
Proof.
  induction fuel as [|n IH]; intros s acc v r; cbn [object_members];
    [discriminate|].
  destruct s as [|c s]; [discriminate|].
  destruct (c =? DQUOTE)%N; [|discriminate].
  destruct (scanstring s []) as [[key r1]|]; [|discriminate].
  destruct (skip_ws r1) as [|c2 r2]; [discriminate|].
  destruct (c2 =? ch ":")%N; [|discriminate].
  destruct (scan_once n (skip_ws r2)) as [[v' r3]|]; [|discriminate].
  destruct (skip_ws r3) as [|c4 r4]; [discriminate|].
  destruct (c4 =? ch "}")%N.
  - intros [= <- _]. eauto.
  - destruct (c4 =? ch ",")%N; [|discriminate]. apply IH.
Qed.

Lemma scan_once_brace (fuel : nat) (r : text) (v : value) (rest : text) :
  scan_once fuel (ch "{" :: r) = Ok (v, rest) -> exists d, v = VDict d.
Proof.
  destruct fuel as [|n]; cbn [scan_once]; [discriminate|].
  change (ch "{" =? DQUOTE)%N with false.
  change (ch "{" =? ch "{")%N with true. cbv iota.
  destruct (starts_with (lit "}") (skip_ws r)).
  - intros [= <- _]. eauto.
  - apply object_members_dict.
Qed.

Lemma json_loads_brace (r : text) (v : value) :
  json_loads (ch "{" :: r) = Ok v -> exists d, v = VDict d.
Proof.
  unfold json_loads.
  change (starts_with [65279%N] (ch "{" :: r)) with false. cbv iota.
  change (skip_ws (ch "{" :: r)) with (ch "{" :: r).
  destruct (scan_once _ _) as [[v' rest]|e] eqn:E.
  - destruct (skip_ws rest); [|discriminate].
    intros [= <-]. eapply scan_once_brace. exact E.
  - destruct e; discriminate.
Qed.

Lemma json_loads_empty : json_loads [] = Raise JSONDecodeError.
Proof. reflexivity. Qed.

(** ** The extractor *)

Lemma find_single_minus1 (c : char) (s : text) :
  ~ In c s -> find s [c] = -1.
Proof. intros H. unfold find. now rewrite find_nat_single_none. Qed.

Lemma rfind_single_minus1 (c : char) (s : text) :
  ~ In c s -> rfind s [c] = -1.
Proof. intros H. unfold rfind. now rewrite rfind_nat_single_none. Qed.

Lemma safe_json_parse_try_dict (raw_text : text) (v : value) :
  safe_json_parse_try raw_text = Ok v -> exists d, v = VDict d.
Proof.
  unfold safe_json_parse_try. set (u := unfenced raw_text).
  change (lit "{") with [ch "{"]. unfold find at 1 2.
  destruct (find_nat [ch "{"] u) as [i|] eqn:Ef; cbn [index_or_minus1].
  - destruct (find_nat_single_some _ _ _ Ef) as (x & y & Hu & Hl).
    destruct (_ && _); [|discriminate].
    rewrite Hu, <- Hl.
    destruct (slice_from x (ch "{" :: y) (rfind (x ++ ch "{" :: y) (lit "}") + 1))
      as [k ->].
    destruct k as [|k]; cbn [firstn].
    + rewrite json_loads_empty. discriminate.
    + apply json_loads_brace.
  - change (-1 =? -1) with true. cbn [negb andb]. discriminate.
Qed.

Lemma safe_json_parse_ok (raw_text : text) (v : value) :
  safe_json_parse_try raw_text = Ok v ->
  safe_json_parse raw_text = ([], Ok (Some v)).
Proof. intros H. unfold safe_json_parse, lift. rewrite H. reflexivity. Qed.

Lemma safe_json_parse_raise (raw_text : text) (e : exn) :
  safe_json_parse_try raw_text = Raise e ->
  safe_json_parse raw_text =
    ([StWarning [Lit (lit "⚠️ JSON parsing failed: "); ErrOf e]], Ok None).
Proof. intros H. unfold safe_json_parse, lift. rewrite H. reflexivity. Qed.

(** C2.  For the reply of the scenario, a sentence followed by the fenced
    object with keys [dish_name] and [calories_kcal], the extractor returns
    the record with [dish_name] "Idli" and [calories_kcal] 120, and shows no
    warning. *)
Theorem safe_json_parse_idli :
  safe_json_parse IDLI_REPLY = ([], Ok (Some IDLI_RECORD)).
Proof. vm_compute. reflexivity. Qed.

(** C3.  When the text, trimmed and freed of fence markers, has no opening
    brace or no closing brace, or when the span from its first opening
    brace through its last closing brace is not accepted by the decoder,
    the extractor shows a warning and returns [None]; it raises nothing. *)
Theorem safe_json_parse_failure (raw_text : text) :
  let u := unfenced raw_text in
  ~ In (ch "{") u \/ ~ In (ch "}") u
  \/ (exists e, json_loads (slice u (find u (lit "{")) (rfind u (lit "}") + 1))
                = Raise e) ->
  exists e,
    safe_json_parse raw_text =
      ([StWarning [Lit (lit "⚠️ JSON parsing failed: "); ErrOf e]], Ok None).
Proof.
  intros u H.
  assert (Ht : exists e, safe_json_parse_try raw_text = Raise e).
  { unfold safe_json_parse_try. fold u.
    destruct H as [H|[H|[e H]]].
    - change (lit "{") with [ch "{"]. rewrite (find_single_minus1 _ _ H).
      cbn. eauto.
    - change (lit "}") with [ch "}"]. rewrite (rfind_single_minus1 _ _ H).
      cbn. rewrite andb_false_r. eauto.
    - rewrite H. destruct (_ && _); eauto. }
  destruct Ht as [e Ht]. exists e. now apply safe_json_parse_raise.
Qed.

(** C9.  Whatever the text, the extractor returns [None] or a [dict]: the
    span it decodes starts at an opening brace, and there the decoder
    builds an object or fails. *)
Theorem safe_json_parse_dict_or_none (raw_text : text) :
  (exists es, safe_json_parse raw_text = (es, Ok None))
  \/ (exists d, safe_json_parse raw_text = ([], Ok (Some (VDict d)))).
Proof.
  destruct (safe_json_parse_try raw_text) as [v|e] eqn:E.
  - right. destruct (safe_json_parse_try_dict _ _ E) as [d ->].
    exists d. now apply safe_json_parse_ok.
  - left. eexists. apply (safe_json_parse_raise _ e). exact E.
Qed.

(** ** Trimming and fence removal around an object text *)

Lemma lstrip_app_nonspace (x y : text) (c : char) :
  is_space c = false -> lstrip (x ++ c :: y) = lstrip x ++ c :: y.
Proof.
  intros Hc. induction x as [|a x IH]; cbn [app lstrip].
  - now rewrite Hc.
  - destruct (is_space a); [exact IH | reflexivity].
Qed.

Lemma rstrip_app_nonspace (x y : text) (c : char) :
  is_space c = false -> rstrip (x ++ c :: y) = x ++ c :: rstrip y.
Proof.
  intros Hc. unfold rstrip.
  rewrite rev_app_distr. cbn [rev]. rewrite <- app_assoc. cbn [app].
  rewrite (lstrip_app_nonspace _ _ _ Hc).
  rewrite rev_app_distr. cbn [rev]. rewrite rev_involutive, <- app_assoc.
  reflexivity.
Qed.

Lemma lstrip_incl (s : text) (c : char) : In c (lstrip s) -> In c s.
Proof.
  induction s as [|a s IH]; cbn [lstrip]; [easy|].
  destruct (is_space a); [|easy]. intros H. right. now apply IH.
Qed.

Lemma rstrip_incl (s : text) (c : char) : In c (rstrip s) -> In c s.
Proof.
  unfold rstrip. intros H. apply in_rev in H. apply lstrip_incl in H.
  now apply in_rev.
Qed.

Lemma replace_from_incl (old : text) (s : text) :
  forall k c, In c (replace_from old [] k s) -> In c s.
Proof.
  induction s as [|a s IH]; intros k c; cbn [replace_from]; [easy|].
  destruct k as [|k].
  - destruct (starts_with old (a :: s)); cbn [app].
    + intros H. right. eapply IH, H.
    + intros [H|H]; [now left | right; eapply IH, H].
  - intros H. right. eapply IH, H.
Qed.

Lemma starts_with_length (p s : text) :
  starts_with p s = true -> (List.length p <= List.length s)%nat.
Proof.
  revert s. induction p as [|a p IH]; intros [|b s]; cbn; try easy; try lia.
  intros H. apply andb_true_iff in H. destruct H as [_ H].
  apply IH in H. lia.
Qed.

(** A character that does not occur in the pattern is a barrier: no
    occurrence of the pattern runs over it. *)
Lemma starts_with_barrier (old x y : text) (c : char) :
  old <> [] -> ~ In c old ->
  starts_with old (x ++ c :: y) = starts_with old x.
Proof.
  revert x. induction old as [|a old IH]; intros x Hne Hc; [easy|].
  destruct x as [|b x]; cbn [app starts_with].
  - destruct (N.eqb_spec a c) as [->|_]; [|reflexivity].
    exfalso. apply Hc. now left.
  - destruct (a =? b)%N; [|reflexivity]. cbn [andb].
    destruct old as [|a' old']; [reflexivity|].
    apply IH; [easy|]. intros H. apply Hc. now right.
Qed.

Lemma replace_from_barrier (old : text) (c : char) (y : text) :
  old <> [] -> ~ In c old ->
  forall x k, (k <= List.length x)%nat ->
    replace_from old [] k (x ++ c :: y)
    = replace_from old [] k x ++ c :: replace_from old [] 0 y.
Proof.
  intros Hne Hc. induction x as [|a x IH]; intros k Hk.
  - assert (k = O) by (cbn in Hk; lia). subst k.
    pose proof (starts_with_barrier old [] y c Hne Hc) as E.
    cbn [app replace_from] in *. rewrite E.
    destruct old as [|o old]; [easy|]. reflexivity.
  - cbn [app replace_from]. destruct k as [|k].
    + change (a :: x ++ c :: y) with ((a :: x) ++ c :: y).
      rewrite (starts_with_barrier old (a :: x) y c Hne Hc).
      destruct (starts_with old (a :: x)) eqn:E; cbn [app].
      * apply IH. apply starts_with_length in E. cbn in E. lia.
      * f_equal. apply IH. lia.
    + apply IH. cbn in Hk. lia.
Qed.

Lemma find_nat_none_cons (old : text) (c : char) (s : text) :
  find_nat old (c :: s) = None ->
  starts_with old (c :: s) = false /\ find_nat old s = None.
Proof.
  cbn [find_nat]. destruct (starts_with old (c :: s)); [discriminate|].
  destruct (find_nat old s); [discriminate|]. easy.
Qed.

Lemma replace_from_absent (old : text) (s : text) :
  find_nat old s = None -> replace_from old [] 0 s = s.
Proof.
  induction s as [|a s IH]; intros H; [reflexivity|].
  apply find_nat_none_cons in H. destruct H as [H1 H2].
  cbn [replace_from]. rewrite H1. f_equal. now apply IH.
Qed.

Lemma starts_with_app (p q s : text) :
  starts_with (p ++ q) s = true -> starts_with p s = true.
Proof.
  revert s. induction p as [|a p IH]; intros s; [easy|].
  destruct s as [|b s]; cbn [app starts_with]; [easy|].
  intros H. apply andb_true_iff in H. destruct H as [H1 H2].
  rewrite H1. cbn [andb]. now apply IH.
Qed.

Lemma find_nat_none_longer (p q s : text) :
  find_nat p s = None -> find_nat (p ++ q) s = None.
Proof.
  induction s as [|a s IH]; cbn [find_nat].
  - destruct (starts_with p []) eqn:E; [discriminate|]. intros _.
    destruct (starts_with (p ++ q) []) eqn:E'; [|reflexivity].
    apply starts_with_app in E'. congruence.
  - destruct (starts_with p (a :: s)) eqn:E; [discriminate|].
    destruct (find_nat p s); [discriminate|]. intros _.
    destruct (starts_with (p ++ q) (a :: s)) eqn:E'.
    + apply starts_with_app in E'. congruence.
    + now rewrite IH.
Qed.

Lemma find_nat_none_app_l (old x y : text) :
  find_nat old (x ++ y) = None -> find_nat old x = None.
Proof.
  induction x as [|a x IH]; cbn [app].
  - intros H. destruct old as [|o old]; [now destruct y|reflexivity].
  - intros H. apply find_nat_none_cons in H. destruct H as [H1 H2].
    cbn [find_nat]. rewrite (IH H2).
    destruct (starts_with old (a :: x)) eqn:E; [|reflexivity].
    assert (E' : starts_with old ((a :: x) ++ y) = true).
    { clear -E. revert E. generalize (a :: x) as z. clear.
      induction old as [|o old IHo]; intros [|b z]; cbn; try easy.
      intros H. apply andb_true_iff in H. destruct H as [-> H].
      cbn. now apply IHo. }
    cbn [app] in E'. congruence.
Qed.

Lemma replace_from_embedded (old b m a : text) :
  old <> [] -> ~ In (ch "{") old -> ~ In (ch "}") old ->
  find_nat old m = None ->
  replace_from old [] 0 (b ++ ch "{" :: m ++ ch "}" :: a)
  = replace_from old [] 0 b ++ ch "{" :: m ++ ch "}" :: replace_from old [] 0 a.
Proof.
  intros Hne Ho Hc Hm.
  rewrite (replace_from_barrier old (ch "{") _ Hne Ho b 0) by lia.
  rewrite (replace_from_barrier old (ch "}") _ Hne Hc m 0) by lia.
  now rewrite (replace_from_absent old m Hm).
Qed.

Lemma unfenced_embedded (before m after : text) :
  find_nat FENCE (ch "{" :: m ++ [ch "}"]) = None ->
  exists b a,
    unfenced (before ++ (ch "{" :: m ++ [ch "}"]) ++ after)
    = b ++ ch "{" :: m ++ ch "}" :: a
    /\ (forall c, In c b -> In c before)
    /\ (forall c, In c a -> In c after).
Proof.
  intros Hj.
  assert (Hm : find_nat FENCE m = None).
  { apply find_nat_none_cons in Hj. destruct Hj as [_ Hj].
    now apply find_nat_none_app_l in Hj. }
  assert (Hm' : find_nat FENCE_JSON m = None).
  { change FENCE_JSON with (FENCE ++ lit "json").
    now apply find_nat_none_longer. }
  exists (replace_from FENCE [] 0 (replace_from FENCE_JSON [] 0 (lstrip before))),
         (replace_from FENCE [] 0 (replace_from FENCE_JSON [] 0 (rstrip after))).
  split; [|split].
  - unfold unfenced, strip.
    replace (before ++ (ch "{" :: m ++ [ch "}"]) ++ after)
      with (before ++ ch "{" :: (m ++ ch "}" :: after))
      by (cbn [app]; now rewrite <- (app_assoc m)).
    rewrite lstrip_app_nonspace by reflexivity.
    replace (lstrip before ++ ch "{" :: m ++ ch "}" :: after)
      with ((lstrip before ++ ch "{" :: m) ++ ch "}" :: after)
      by (now rewrite <- app_assoc).
    rewrite rstrip_app_nonspace by reflexivity.
    rewrite <- app_assoc. cbn [app].
    change (replace ?s FENCE_JSON []) with (replace_from FENCE_JSON [] 0 s).
    rewrite replace_from_embedded; try assumption; try easy;
      try (vm_compute; intuition discriminate).
    change (replace ?s FENCE []) with (replace_from FENCE [] 0 s).
    rewrite replace_from_embedded; try assumption; try easy;
      try (vm_compute; intuition discriminate).
  - intros c H. apply replace_from_incl in H. apply replace_from_incl in H.
    now apply lstrip_incl.
  - intros c H. apply replace_from_incl in H. apply replace_from_incl in H.
    now apply rstrip_incl.
Qed.

(** C1, as the code has it.  An object text is an opening brace, a body and
    a closing brace that the decoder turns into a [dict].  When it holds no
    fence marker, when the text before it has no opening brace and the text
    after it has no closing brace, the extractor returns the [dict] of the
    object text and shows no warning; the surrounding text may hold prose
    and fence markers. *)
Theorem extraction_round_trip (before m after : text) (d : dict) :
  let j := ch "{" :: m ++ [ch "}"] in
  json_loads j = Ok (VDict d) ->
  contains FENCE j = false ->
  ~ In (ch "{") before ->
  ~ In (ch "}") after ->
  safe_json_parse (before ++ j ++ after) = ([], Ok (Some (VDict d))).
Proof.
  intros j Hd Hf Hb Ha. apply safe_json_parse_ok.
  assert (Hj : find_nat FENCE j = None).
  { unfold contains in Hf. destruct (find_nat FENCE j); [discriminate|easy]. }
  destruct (unfenced_embedded before m after Hj) as (b & a & Hu & Hb' & Ha').
  unfold safe_json_parse_try. fold j in Hu. rewrite Hu. clear Hu.
  assert (Hf1 : find (b ++ ch "{" :: m ++ ch "}" :: a) (lit "{")
                = Z.of_nat (List.length b)).
  { unfold find. change (lit "{") with [ch "{"].
    rewrite find_nat_single_app; [reflexivity|]. intros H. now apply Hb, Hb'. }
  assert (Hf2 : rfind (b ++ ch "{" :: m ++ ch "}" :: a) (lit "}")
                = Z.of_nat (List.length b + List.length m + 1)).
  { unfold rfind. change (lit "}") with [ch "}"].
    replace (b ++ ch "{" :: m ++ ch "}" :: a)
      with ((b ++ ch "{" :: m) ++ ch "}" :: a) by (now rewrite <- app_assoc).
    rewrite rfind_nat_single_app by (intros H; now apply Ha, Ha').
    cbn [index_or_minus1]. rewrite length_app. cbn [List.length].
    f_equal. lia. }
  rewrite Hf1, Hf2.
  replace (negb (Z.of_nat (List.length b) =? -1)) with true
    by (symmetry; apply negb_true_iff, Z.eqb_neq; lia).
  replace (negb (Z.of_nat (List.length b + List.length m + 1) =? -1)) with true
    by (symmetry; apply negb_true_iff, Z.eqb_neq; lia).
  cbn [andb].
  replace (b ++ ch "{" :: m ++ ch "}" :: a) with (b ++ j ++ a)
    by (unfold j; cbn [app]; now rewrite <- (app_assoc m)).
  replace (Z.of_nat (List.length b + List.length m + 1) + 1)
    with (Z.of_nat (List.length b + List.length j))
    by (unfold j; cbn [List.length]; rewrite length_app; cbn [List.length]; lia).
  rewrite slice_exact. exact Hd.
Qed.

(** A character is not among those of a given text. *)
Ltac absent_char :=
  let H := fresh in
  intros H; vm_compute in H;
  repeat (destruct H as [H|H]; [discriminate H|]); exact H.

Lemma extraction_round_trip_witness :
  let before := lit "Sure! ```json
" in
  let m := litq "'dish_name':'Idli','calories_kcal':120" in
  let after := lit "
```" in
  let j := ch "{" :: m ++ [ch "}"] in
  json_loads j = Ok IDLI_RECORD
  /\ contains FENCE j = false
  /\ ~ In (ch "{") before
  /\ ~ In (ch "}") after
  /\ safe_json_parse (before ++ j ++ after) = ([], Ok (Some IDLI_RECORD)).
Proof.
  intros before m after j.
  assert (H1 : json_loads j = Ok IDLI_RECORD) by (vm_compute; reflexivity).
  assert (H2 : contains FENCE j = false) by (vm_compute; reflexivity).
  assert (H3 : ~ In (ch "{") before) by absent_char.
  assert (H4 : ~ In (ch "}") after) by absent_char.
  refine (conj H1 (conj H2 (conj H3 (conj H4 _)))).
  exact (extraction_round_trip before m after _ H1 H2 H3 H4).
Defined.

(** C1, as stated, fails in two ways.  A fence marker inside a string value
    of the object is removed with the others, so another object comes back;
    and braces in the prose before the object widen the decoded span, so
    nothing comes back. *)
Lemma extraction_round_trip_counterexample :
  (json_loads FENCE_VALUE_OBJECT
   = Ok (VDict [(lit "tip", VStr (lit "wrap code in ```"))])
   /\ safe_json_parse FENCE_VALUE_REPLY
      = ([], Ok (Some (VDict [(lit "tip", VStr (lit "wrap code in "))]))))
  /\ (json_loads BRACES_OBJECT = Ok (VDict [(lit "a", VInt 1)])
      /\ safe_json_parse BRACES_REPLY
         = ([StWarning [Lit (lit "⚠️ JSON parsing failed: ");
                        ErrOf JSONDecodeError]], Ok None)).
Proof. vm_compute. repeat split. Qed.

Lemma safe_json_parse_failure_witness :
  let raw_text := lit "I cannot compute this." in
  let u := unfenced raw_text in
  (~ In (ch "{") u \/ ~ In (ch "}") u
   \/ (exists e, json_loads (slice u (find u (lit "{")) (rfind u (lit "}") + 1))
                 = Raise e))
  /\ exists e,
      safe_json_parse raw_text =
        ([StWarning [Lit (lit "⚠️ JSON parsing failed: "); ErrOf e]], Ok None).
Proof.
  intros raw_text u.
  assert (H : ~ In (ch "{") u) by absent_char.
  split; [left; exact H|].
  exact (safe_json_parse_failure raw_text (or_introl H)).
Defined.

(** ** The prompt *)

Lemma starts_with_self (p s : text) : starts_with p (p ++ s) = true.
Proof.
  induction p as [|a p IH]; [reflexivity|].
  cbn [app starts_with]. now rewrite N.eqb_refl.
Qed.

Lemma contains_prefix (sub r : text) : contains sub (sub ++ r) = true.
Proof.
  unfold contains. destruct sub as [|a sub]; [now destruct r|].
  cbn [app find_nat].
  change (a :: sub ++ r) with ((a :: sub) ++ r).
  now rewrite starts_with_self.
Qed.

Lemma contains_app_r (sub x s : text) :
  contains sub s = true -> contains sub (x ++ s) = true.
Proof.
  unfold contains. intros H. induction x as [|a x IH]; [exact H|].
  cbn [app find_nat]. destruct (starts_with sub (a :: x ++ s)); [reflexivity|].
  destruct (find_nat sub (x ++ s)); [reflexivity|discriminate].
Qed.

Lemma starts_with_app_l (p s y : text) :
  starts_with p s = true -> starts_with p (s ++ y) = true.
Proof.
  revert s. induction p as [|a p IH]; intros [|b s]; cbn; try easy.
  intros H. apply andb_true_iff in H. destruct H as [-> H].
  cbn. now apply IH.
Qed.

Lemma contains_app_l (sub s y : text) :
  contains sub s = true -> contains sub (s ++ y) = true.
Proof.
  unfold contains. induction s as [|a s IH]; cbn [app find_nat].
  - destruct (starts_with sub []) eqn:E; [|discriminate]. intros _.
    destruct sub; [now destruct y|discriminate].
  - destruct (starts_with sub (a :: s)) eqn:E.
    + intros _. change (a :: s ++ y) with ((a :: s) ++ y).
      now rewrite (starts_with_app_l _ _ y E).
    + intros H. destruct (starts_with sub (a :: s ++ y)); [reflexivity|].
      destruct (find_nat sub s); [|discriminate].
      specialize (IH eq_refl).
      destruct (find_nat sub (s ++ y)); [reflexivity|discriminate].
Qed.

Lemma contains_prefix3 (x y z r : text) :
  contains (x ++ y ++ z) (x ++ y ++ z ++ r) = true.
Proof.
  replace (x ++ y ++ z ++ r) with ((x ++ y ++ z) ++ r)
    by (now rewrite <- !app_assoc).
  apply contains_prefix.
Qed.

Lemma strip_framed (h x t : text) (c1 c2 : char) :
  is_space c1 = false -> is_space c2 = false ->
  strip ((LF :: c1 :: h) ++ x ++ t ++ [c2; LF]) = (c1 :: h) ++ x ++ t ++ [c2].
Proof.
  intros H1 H2. unfold strip. cbn [app lstrip].
  change (is_space LF) with true. cbv iota. rewrite H1.
  replace (c1 :: h ++ x ++ t ++ [c2; LF])
    with ((c1 :: h ++ x ++ t) ++ c2 :: [LF])
    by (cbn [app]; rewrite <- !app_assoc; reflexivity).
  rewrite (rstrip_app_nonspace _ [LF] c2 H2).
  change (rstrip [LF]) with (@nil char).
  cbn [app]. rewrite <- !app_assoc. reflexivity.
Qed.

(** The prompt is the template without its first and last line feed:
    trimming takes nothing else away. *)
Lemma build_prompt_eq (dish : text) (p : profile) :
  build_prompt dish p
  = skipn 1 PROMPT_HEAD ++ dish ++ PROMPT_FORMAT ++ user_context p
    ++ removelast PROMPT_TAIL.
Proof.
  unfold build_prompt.
  assert (Hh : PROMPT_HEAD = LF :: ch "Y" :: skipn 2 PROMPT_HEAD)
    by (vm_compute; reflexivity).
  assert (Ht : PROMPT_TAIL
               = removelast (removelast PROMPT_TAIL) ++ [ch "."; LF])
    by (vm_compute; reflexivity).
  assert (Ht' : removelast PROMPT_TAIL
                = removelast (removelast PROMPT_TAIL) ++ [ch "."])
    by (vm_compute; reflexivity).
  set (h := skipn 2 PROMPT_HEAD) in *.
  set (t := removelast (removelast PROMPT_TAIL)) in *.
  clearbody h t. rewrite Ht', Ht, Hh. clear Hh Ht Ht'.
  rewrite !(app_assoc dish), !(app_assoc (dish ++ PROMPT_FORMAT)).
  generalize ((dish ++ PROMPT_FORMAT) ++ user_context p) as x. intros x.
  rewrite (strip_framed h x t (ch "Y") (ch ".") eq_refl eq_refl).
  reflexivity.
Qed.

Lemma strip_fixed (c1 c2 : char) (m : text) :
  is_space c1 = false -> is_space c2 = false ->
  strip (c1 :: m ++ [c2]) = c1 :: m ++ [c2].
Proof.
  intros H1 H2. unfold strip. cbn [lstrip]. rewrite H1.
  change (c1 :: m ++ [c2]) with ((c1 :: m) ++ c2 :: []).
  now rewrite (rstrip_app_nonspace _ [] c2 H2).
Qed.

Lemma build_prompt_shape (dish : text) (p : profile) :
  exists m, build_prompt dish p = ch "Y" :: m ++ [ch "."].
Proof.
  assert (Hh : skipn 1 PROMPT_HEAD = ch "Y" :: skipn 2 PROMPT_HEAD)
    by (vm_compute; reflexivity).
  assert (Ht : removelast PROMPT_TAIL
               = removelast (removelast PROMPT_TAIL) ++ [ch "."])
    by (vm_compute; reflexivity).
  exists (skipn 2 PROMPT_HEAD ++ dish ++ PROMPT_FORMAT ++ user_context p
          ++ removelast (removelast PROMPT_TAIL)).
  rewrite build_prompt_eq, Hh, Ht.
  rewrite <- !app_assoc. rewrite <- app_comm_cons. reflexivity.
Qed.

(** Looks for the needle at the head of one of the pieces of a
    concatenation. *)
Ltac find_piece :=
  repeat first
    [ apply contains_prefix3
    | apply contains_prefix
    | apply contains_app_r ].

(** C4.  Whatever the dish name and the profile, [build_prompt] returns a
    text (it is a total function: nothing is raised), and for every field
    of the profile that is omitted the text holds the placeholder of the
    field, at the place of the field in the context clause: between the
    words that precede and follow that field. *)
Theorem build_prompt_placeholders
  (dish : text) (p : profile) (key before default after : text) :
  In (key, before, default, after) PROFILE_SLOTS ->
  dict_get p key = None ->
  contains (before ++ default ++ after) (build_prompt dish p) = true
  /\ contains default (build_prompt dish p) = true.
Proof.
  intros Hin Hget. rewrite build_prompt_eq.
  assert (Hc : contains (before ++ default ++ after)
                 (user_context p ++ removelast PROMPT_TAIL) = true
               /\ contains default
                    (user_context p ++ removelast PROMPT_TAIL) = true).
  { unfold user_context. rewrite <- !app_assoc.
    generalize (removelast PROMPT_TAIL) as t. intros t.
    unfold PROFILE_SLOTS in Hin. cbn [In] in Hin.
    repeat (destruct Hin as [Hin|Hin];
            [ injection Hin as <- <- <- <-; unfold profile_get;
              rewrite Hget; split; find_piece | ]).
    destruct Hin. }
  destruct Hc as [H1 H2].
  split; do 3 apply contains_app_r; assumption.
Qed.

Lemma build_prompt_placeholders_witness :
  In (lit "gender", lit " yrs, ", lit "unspecified", lit ", height ")
     PROFILE_SLOTS
  /\ dict_get [(lit "age", FInt 25)] (lit "gender") = None
  /\ contains (lit " yrs, " ++ lit "unspecified" ++ lit ", height ")
       (build_prompt (lit "idli") [(lit "age", FInt 25)]) = true
  /\ contains (lit "unspecified")
       (build_prompt (lit "idli") [(lit "age", FInt 25)]) = true.
Proof.
  assert (H1 : In (lit "gender", lit " yrs, ", lit "unspecified",
                   lit ", height ") PROFILE_SLOTS)
    by (right; left; reflexivity).
  assert (H2 : dict_get [(lit "age", FInt 25)] (lit "gender") = None)
    by reflexivity.
  exact (conj H1 (conj H2
           (build_prompt_placeholders (lit "idli") [(lit "age", FInt 25)]
              _ _ _ _ H1 H2))).
Defined.

(** C5.  Whatever the dish name and the profile, the prompt holds the two
    sentences that ask for JSON only and the whole template of the report,
    and it is trimmed: trimming it again changes nothing, its first
    character and its last character are not white space. *)
Theorem build_prompt_directive_schema_trimmed (dish : text) (p : profile) :
  contains JSON_ONLY_DIRECTIVE (build_prompt dish p) = true
  /\ contains SCHEMA_TEMPLATE (build_prompt dish p) = true
  /\ contains NO_FENCE_DIRECTIVE (build_prompt dish p) = true
  /\ strip (build_prompt dish p) = build_prompt dish p
  /\ (exists c r, build_prompt dish p = c :: r /\ is_space c = false)
  /\ (exists r c, build_prompt dish p = r ++ [c] /\ is_space c = false).
Proof.
  assert (H1 : contains JSON_ONLY_DIRECTIVE PROMPT_FORMAT = true)
    by (vm_compute; reflexivity).
  assert (H2 : contains SCHEMA_TEMPLATE PROMPT_FORMAT = true)
    by (vm_compute; reflexivity).
  assert (H3 : contains NO_FENCE_DIRECTIVE (removelast PROMPT_TAIL) = true)
    by (vm_compute; reflexivity).
  destruct (build_prompt_shape dish p) as [m Hm].
  split; [|split; [|split; [|split; [|split]]]].
  - rewrite build_prompt_eq. do 2 apply contains_app_r.
    now apply contains_app_l.
  - rewrite build_prompt_eq. do 2 apply contains_app_r.
    now apply contains_app_l.
  - rewrite build_prompt_eq. now do 4 apply contains_app_r.
  - rewrite Hm. now apply strip_fixed.
  - exists (ch "Y"), (m ++ [ch "."]). now split.
  - exists (ch "Y" :: m), (ch "."). now split.
Qed.

(** ** Computations that return *)

Lemma bind_ok {A B} (m : M A) (k : A -> M B) es1 a es2 r :
  m = (es1, Ok a) -> k a = (es2, r) -> bind m k = (es1 ++ es2, r).
Proof. intros -> H. unfold bind. now rewrite H. Qed.

Lemma with_block_ok {A} (enter leave : event) (m : M A) es r :
  m = (es, r) -> with_block enter leave m = (enter :: es ++ [leave], r).
Proof. now intros ->. Qed.

Lemma tips_shown_app (es1 es2 : list event) :
  tips_shown (es1 ++ es2) = tips_shown es1 ++ tips_shown es2.
Proof.
  induction es1 as [|e es1 IH]; [reflexivity|].
  cbn [app]. destruct e; cbn [tips_shown]; try exact IH.
  destruct d as [|[] [|[] [|]]]; try exact IH.
  destruct (text_eqb s (lit "- ")); cbn [app]; now rewrite IH.
Qed.

(** A loop whose body only shows events returns, and what holds of the
    events of every turn holds of all of them when it is kept by
    concatenation. *)
Lemma for_each_ok {A} (Q : list event -> Prop) (body : A -> M unit) (l : list A) :
  Q [] -> (forall x y, Q x -> Q y -> Q (x ++ y)) ->
  (forall x, In x l -> exists es, body x = (es, Ok tt) /\ Q es) ->
  exists es, for_each l body = (es, Ok tt) /\ Q es.
Proof.
  intros Hnil Happ. induction l as [|x l IH]; intros Hb.
  - exists []. now split.
  - destruct (Hb x (or_introl eq_refl)) as (es1 & E1 & Q1).
    destruct IH as (es2 & E2 & Q2); [intros y Hy; apply Hb; now right|].
    exists (es1 ++ es2). split; [|now apply Happ].
    cbn [for_each]. now apply (bind_ok _ _ es1 tt es2).
Qed.

(** ** Fields of a partial report *)

Lemma text_eqb_eq (a b : text) : text_eqb a b = true -> a = b.
Proof.
  revert b. induction a as [|x a IH]; intros [|y b]; cbn; try easy.
  intros H. apply andb_true_iff in H. destruct H as [H1 H2].
  apply N.eqb_eq in H1. subst. f_equal. now apply IH.
Qed.

Lemma dict_get_in {V} (d : list (text * V)) (k : text) (v : V) :
  dict_get d k = Some v -> In (k, v) d.
Proof.
  induction d as [|[k' v'] d IH]; cbn [dict_get]; [discriminate|].
  destruct (text_eqb k' k) eqn:E.
  - intros [= <-]. apply text_eqb_eq in E. subst. now left.
  - intros H. right. now apply IH.
Qed.

Lemma entries_checked (check : text -> value -> bool) (d : dict) k v :
  forallb (fun kv => check (fst kv) (snd kv)) d = true ->
  dict_get d k = Some v -> check k v = true.
Proof.
  intros Hall Hget. apply dict_get_in in Hget.
  rewrite forallb_forall in Hall. exact (Hall (k, v) Hget).
Qed.

(** A field read with a default that has the type of the shape has that
    type, missing or not. *)
Lemma get_default_checked (check : text -> value -> bool) (d : dict) k dflt :
  forallb (fun kv => check (fst kv) (snd kv)) d = true ->
  check k dflt = true ->
  check k (dict_get_default d k dflt) = true.
Proof.
  intros Hall Hd. unfold dict_get_default.
  destruct (dict_get d k) as [v|] eqn:E; [|exact Hd].
  exact (entries_checked check d k v Hall E).
Qed.

Lemma all_str_ok (l : list value) :
  forallb is_str l = true -> exists ts, all_str l = Ok ts.
Proof.
  induction l as [|v l IH]; cbn [forallb all_str]; [now exists []|].
  intros H. apply andb_true_iff in H. destruct H as [H1 H2].
  destruct v; try discriminate. destruct (IH H2) as [ts ->]. eauto.
Qed.

Lemma py_join_ok (sep : text) (v : value) :
  is_str_list v = true -> exists t, py_join sep v = Ok t.
Proof.
  destruct v; try discriminate. cbn [is_str_list]. intros H.
  destruct (all_str_ok l H) as [ts E]. unfold py_join. cbn [py_iter].
  rewrite E. eauto.
Qed.

Lemma unit_number_percent (v : value) :
  is_unit_number v = true ->
  exists v100 t, py_times_100 v = Ok v100 /\ py_format_0f v100 = Ok t.
Proof.
  destruct v; try discriminate; cbn [is_unit_number py_times_100].
  - intros H. apply andb_true_iff in H. destruct H as [H0 H1].
    apply Z.leb_le in H0. apply Z.leb_le in H1.
    assert (Hz : z = 0 \/ z = 1) by lia.
    destruct Hz as [-> | ->]; eexists; eexists; split;
      try reflexivity; vm_compute; reflexivity.
  - intros _. eexists; eexists; split; reflexivity.
Qed.

(** ** Rendering a partial report, section by section *)

Arguments lit : simpl never.
Arguments dict_get_default : simpl never.
Arguments join : simpl never.

(** Runs the binds of a computation as far as they are known. *)
Ltac run := cbn [py_get py_items py_iter py_getitem lift bind emit ret app].

Section PartialReport.

Variable d : dict.
Hypothesis Hshape : partial_report d = true.

Lemma field_checked (k : string) (dflt : value) :
  report_field (lit k) dflt = true ->
  report_field (lit k) (dict_get_default d (lit k) dflt) = true.
Proof. apply get_default_checked. exact Hshape. Qed.

Lemma field_absent (k : string) (dflt : value) :
  absent d k -> dict_get_default d (lit k) dflt = dflt.
Proof. unfold absent, dict_get_default. now intros ->. Qed.

Lemma dish_and_ingredients_ok :
  exists es,
    show_dish_and_ingredients (VDict d) = (es, Ok tt)
    /\ tips_shown es = []
    /\ (absent d "dish_name" ->
        In (StMarkdown [Lit (lit "### 🍽️ Dish: **");
                        StrOf (VStr (lit "Unknown")); Lit (lit "**")]) es)
    /\ (absent d "ingredients" -> In (StWrite [Lit (join (lit ", ") [])]) es).
Proof.
  assert (Hi : is_str_list (dict_get_default d (lit "ingredients") (VList [])) = true)
    by (apply (field_checked "ingredients"); reflexivity).
  destruct (py_join_ok (lit ", ") _ Hi) as [t Ht].
  eexists. split; [|split; [|split]].
  - unfold show_dish_and_ingredients. cbn [py_get lift bind emit app].
    rewrite Ht. cbn [bind emit app]. reflexivity.
  - reflexivity.
  - intros Ha. rewrite (field_absent _ _ Ha). now left.
  - intros Ha. rewrite (field_absent _ _ Ha) in Ht.
    injection Ht as <-. right; right; now left.
Qed.

Lemma is_dict_of_dict (check : text -> value -> bool) (v : value) :
  is_dict_of check v = true ->
  exists s, v = VDict s
            /\ forallb (fun kv => check (fst kv) (snd kv)) s = true.
Proof. destruct v; try discriminate. cbn. eauto. Qed.

Lemma show_macros_loop (items : list (text * value)) :
  exists es, for_each items show_macro = (es, Ok tt) /\ tips_shown es = [].
Proof.
  apply for_each_ok; [reflexivity| |].
  - intros x y Hx Hy. now rewrite tips_shown_app, Hx, Hy.
  - intros [k v] _. eexists. split; reflexivity.
Qed.

Lemma show_micros_loop (items : list (text * value)) :
  exists es, for_each items show_micro = (es, Ok tt) /\ tips_shown es = [].
Proof.
  apply for_each_ok; [reflexivity| |].
  - intros x y Hx Hy. now rewrite tips_shown_app, Hx, Hy.
  - intros [k v] _. eexists. split; reflexivity.
Qed.

Lemma serving_and_macros_ok :
  exists es,
    show_serving_and_macros (VDict d) = (es, Ok tt)
    /\ tips_shown es = []
    /\ (absent d "estimated_serving_g" ->
        In (StMetric (lit "Estimated Serving")
              [StrOf (VInt 0); Lit (lit " g")]) es)
    /\ (absent d "calories_kcal" ->
        In (StMetric (lit "Calories") [StrOf (VInt 0); Lit (lit " kcal")]) es).
Proof.
  destruct (is_dict_of_dict _ _ (field_checked "macros" (VDict []) eq_refl))
    as (m & Hm & _).
  destruct (show_macros_loop m) as (el & El & Tl).
  eexists. split; [|split; [|split]].
  - unfold show_serving_and_macros. run. rewrite Hm.
    run. rewrite El. reflexivity.
  - cbn [tips_shown]. exact Tl.
  - intros Ha. rewrite (field_absent _ _ Ha). right; now left.
  - intros Ha. rewrite (field_absent _ _ Ha). right; right; now left.
Qed.

Lemma micros_ok :
  exists es, show_micros (VDict d) = (es, Ok tt) /\ tips_shown es = [].
Proof.
  destruct (is_dict_of_dict _ _ (field_checked "micros" (VDict []) eq_refl))
    as (m & Hm & _).
  destruct (show_micros_loop m) as (el & El & Tl).
  eexists. split.
  - unfold show_micros. run. rewrite Hm.
    run. rewrite El. reflexivity.
  - cbn [tips_shown]. exact Tl.
Qed.

Lemma allergens_ok :
  exists es, show_allergens (VDict d) = (es, Ok tt) /\ tips_shown es = [].
Proof.
  unfold show_allergens. run. unfold dict_get_default.
  destruct (dict_get d (lit "allergens")) as [v|] eqn:E.
  - destruct (truthy v).
    + assert (Hv : is_str_list v = true)
        by exact (entries_checked report_field d _ _ Hshape E).
      destruct (py_join_ok (lit ", ") v Hv) as [t Ht].
      run. rewrite Ht. run. eexists. split; reflexivity.
    + eexists. split; reflexivity.
  - eexists. split; reflexivity.
Qed.

Lemma st_progress_unit (v : value) :
  is_unit_number v = true -> st_progress v = ([StProgress v], Ok tt).
Proof.
  destruct v; try discriminate; cbn [is_unit_number]; intros H;
    unfold st_progress.
  - apply andb_true_iff in H. destruct H as [H0 H1].
    apply Z.leb_le in H1. rewrite H0.
    replace (z <=? 100) with true by (symmetry; apply Z.leb_le; lia).
    reflexivity.
  - unfold ONE in H. now rewrite H.
Qed.

(** A sub-record read with the empty [dict] as default is a [dict], and a
    field missing in it, with it or alone, reads as the default. *)
Lemma sub_record (k : string) (check : text -> value -> bool) :
  report_field (lit k) (dict_get_default d (lit k) (VDict []))
  = is_dict_of check (dict_get_default d (lit k) (VDict [])) ->
  report_field (lit k) (VDict []) = true ->
  exists c,
    dict_get_default d (lit k) (VDict []) = VDict c
    /\ forallb (fun kv => check (fst kv) (snd kv)) c = true
    /\ (forall sub dflt,
          sub_absent d k sub -> dict_get_default c (lit sub) dflt = dflt).
Proof.
  intros Hconv Hd.
  pose proof (field_checked k (VDict []) Hd) as Hc. rewrite Hconv in Hc.
  destruct (is_dict_of_dict _ _ Hc) as (c & Ec & Hall).
  exists c. split; [exact Ec|]. split; [exact Hall|].
  intros sub dflt. unfold sub_absent. unfold dict_get_default in Ec.
  unfold dict_get_default.
  destruct (dict_get d (lit k)) as [v|].
  - subst v. now intros ->.
  - injection Ec as <-. reflexivity.
Qed.

Lemma confidence_ok :
  exists es,
    show_confidence (VDict d) = (es, Ok tt)
    /\ tips_shown es = []
    /\ (sub_absent d "confidence" "overall" -> In (StProgress ZERO) es)
    /\ (sub_absent d "confidence" "calories" ->
        exists x,
          In (StCaption [Lit (lit "Calories confidence: "); Lit (lit "0");
                         Lit (lit "% | Ingredients confidence: "); Lit x;
                         Lit (lit "%")]) es)
    /\ (sub_absent d "confidence" "ingredients" ->
        exists x,
          In (StCaption [Lit (lit "Calories confidence: "); Lit x;
                         Lit (lit "% | Ingredients confidence: ");
                         Lit (lit "0"); Lit (lit "%")]) es).
Proof.
  destruct (sub_record "confidence" confidence_field eq_refl eq_refl)
    as (c & Ec & Hall & Hsub).
  assert (Ho : is_unit_number (dict_get_default c (lit "overall") ZERO) = true)
    by exact (get_default_checked confidence_field c (lit "overall") ZERO
                Hall eq_refl).
  assert (Hc : is_unit_number (dict_get_default c (lit "calories") ZERO) = true)
    by exact (get_default_checked confidence_field c (lit "calories") ZERO
                Hall eq_refl).
  assert (Hi : is_unit_number (dict_get_default c (lit "ingredients") ZERO) = true)
    by exact (get_default_checked confidence_field c (lit "ingredients") ZERO
                Hall eq_refl).
  destruct (unit_number_percent _ Hc) as (c100 & ct & Ec1 & Ec2).
  destruct (unit_number_percent _ Hi) as (i100 & it & Ei1 & Ei2).
  eexists. split; [|split; [|split; [|split]]].
  - unfold show_confidence. run. rewrite Ec. run.
    rewrite (st_progress_unit _ Ho). run.
    rewrite Ec1. run. rewrite Ec2. run. rewrite Ei1. run. rewrite Ei2. run.
    reflexivity.
  - reflexivity.
  - intros Ha. rewrite (Hsub _ ZERO Ha). right; now left.
  - intros Ha. rewrite (Hsub _ ZERO Ha) in Ec1.
    injection Ec1 as <-. injection Ec2 as <-.
    exists it. right; right; now left.
  - intros Ha. rewrite (Hsub _ ZERO Ha) in Ei1.
    injection Ei1 as <-. injection Ei2 as <-.
    exists ct. right; right; now left.
Qed.

Lemma portion_ok :
  exists es,
    show_portion (VDict d) = (es, Ok tt)
    /\ tips_shown es = []
    /\ (sub_absent d "portion_recommendation" "amount_g" ->
        exists frequency,
          In (StInfo [Lit (lit "**"); StrOf (VStr (lit "?"));
                      Lit (lit " g** — "); StrOf frequency]) es)
    /\ (sub_absent d "portion_recommendation" "frequency" ->
        exists amount,
          In (StInfo [Lit (lit "**"); StrOf amount; Lit (lit " g** — ");
                      StrOf (VStr (lit "No suggestion"))]) es).
Proof.
  destruct (sub_record "portion_recommendation" portion_field eq_refl eq_refl)
    as (c & Ec & _ & Hsub).
  eexists. split; [|split; [|split]].
  - unfold show_portion. run. rewrite Ec. run. reflexivity.
  - reflexivity.
  - intros Ha. rewrite (Hsub _ _ Ha). eexists. right; now left.
  - intros Ha. rewrite (Hsub _ _ Ha). eexists. right; now left.
Qed.

Lemma verdict_ok :
  exists es,
    show_verdict (VDict d) = (es, Ok tt)
    /\ tips_shown es = []
    /\ (sub_absent d "healthiness_verdict" "rating" ->
        exists explanation,
          In (StSuccess [Lit (lit "**"); StrOf (VStr (lit "-"));
                         Lit (lit "** — "); StrOf explanation]) es)
    /\ (sub_absent d "healthiness_verdict" "explanation" ->
        exists rating,
          In (StSuccess [Lit (lit "**"); StrOf rating; Lit (lit "** — ");
                         StrOf (VStr [])]) es).
Proof.
  destruct (sub_record "healthiness_verdict" verdict_field eq_refl eq_refl)
    as (c & Ec & _ & Hsub).
  eexists. split; [|split; [|split]].
  - unfold show_verdict. run. rewrite Ec. run. reflexivity.
  - reflexivity.
  - intros Ha. rewrite (Hsub _ _ Ha). eexists. right; now left.
  - intros Ha. rewrite (Hsub _ _ Ha). eexists. right; now left.
Qed.

Lemma advice_ok :
  exists es,
    show_advice (VDict d) = (es, Ok tt)
    /\ (absent d "advice" -> tips_shown es = []).
Proof.
  assert (Ha : is_str_list (dict_get_default d (lit "advice") (VList [])) = true)
    by (apply (field_checked "advice"); reflexivity).
  destruct (dict_get_default d (lit "advice") (VList [])) as [| | | | |l|] eqn:E;
    try discriminate.
  destruct (for_each_ok (fun _ => True)
              (fun tip => emit (StWrite [Lit (lit "- "); StrOf tip])) l)
    as (el & El & _); [easy|easy| |].
  { intros x _. eexists. split; [reflexivity|easy]. }
  eexists. split.
  - unfold show_advice. run. rewrite E. run. rewrite El. reflexivity.
  - intros Hab. rewrite (field_absent _ _ Hab) in E. injection E as <-.
    cbn [for_each ret] in El. injection El as <-. reflexivity.
Qed.

Lemma verdict_again_ok :
  exists es,
    show_verdict_again (VDict d) = (es, Ok tt) /\ tips_shown es = [].
Proof.
  destruct (sub_record "healthiness_verdict" verdict_field eq_refl eq_refl)
    as (c & Ec & Hall & _).
  assert (Hr : is_str (dict_get_default c (lit "rating") (VStr (lit "—"))) = true)
    by exact (get_default_checked verdict_field c (lit "rating")
                (VStr (lit "—")) Hall eq_refl).
  unfold show_verdict_again. run. rewrite Ec.
  destruct (truthy (VDict c)).
  - run. destruct (dict_get_default c (lit "rating") (VStr (lit "—")));
      try discriminate.
    eexists. split; reflexivity.
  - eexists. split; reflexivity.
Qed.

Lemma render_report_ok :
  exists es, render_report (VDict d) = (es, Ok tt) /\ defaults_shown d es.
Proof.
  destruct dish_and_ingredients_ok as (e1 & E1 & T1 & D1 & D2).
  destruct serving_and_macros_ok as (e2 & E2 & T2 & D3 & D4).
  destruct micros_ok as (e3 & E3 & T3).
  destruct allergens_ok as (e4 & E4 & T4).
  destruct confidence_ok as (e5 & E5 & T5 & D5 & D6 & D7).
  destruct portion_ok as (e6 & E6 & T6 & D8 & D9).
  destruct verdict_ok as (e7 & E7 & T7 & D10 & D11).
  destruct advice_ok as (e8 & E8 & D12).
  destruct verdict_again_ok as (e9 & E9 & T9).
  exists ([StSubheader [Lit (lit "✅ Nutrition Summary (Estimated)")]]
          ++ e1 ++ [StColumns 2]
          ++ (ColumnEnter 0 :: e2 ++ [ColumnLeave 0])
          ++ (ColumnEnter 1 :: e3 ++ [ColumnLeave 1])
          ++ e4 ++ e5 ++ e6 ++ e7 ++ e8 ++ e9).
  split.
  - unfold render_report.
    apply bind_ok with (a := tt); [reflexivity|].
    apply bind_ok with (a := tt); [exact E1|].
    apply bind_ok with (a := tt); [reflexivity|].
    apply bind_ok with (a := tt); [now apply with_block_ok|].
    apply bind_ok with (a := tt); [now apply with_block_ok|].
    apply bind_ok with (a := tt); [exact E4|].
    apply bind_ok with (a := tt); [exact E5|].
    apply bind_ok with (a := tt); [exact E6|].
    apply bind_ok with (a := tt); [exact E7|].
    apply bind_ok with (a := tt); [exact E8|].
    exact E9.
  - unfold defaults_shown.
    repeat match goal with |- _ /\ _ => split end; intros Ha;
      try (specialize (D6 Ha); destruct D6 as [x D6]; exists x);
      try (specialize (D7 Ha); destruct D7 as [x D7]; exists x);
      try (specialize (D8 Ha); destruct D8 as [x D8]; exists x);
      try (specialize (D9 Ha); destruct D9 as [x D9]; exists x);
      try (specialize (D10 Ha); destruct D10 as [x D10]; exists x);
      try (specialize (D11 Ha); destruct D11 as [x D11]; exists x);
      try (rewrite !in_app_iff; cbn [In]; rewrite ?in_app_iff; auto 20; fail).
    rewrite !tips_shown_app. cbn [tips_shown]. rewrite !tips_shown_app.
    cbn [tips_shown]. rewrite T1, T2, T3, T4, T5, T6, T7, (D12 Ha), T9.
    reflexivity.
Qed.

End PartialReport.

(** ** The dispatch on the parsed reply *)

(** C7, as the code has it.  For a report of which any fields are missing,
    nothing is raised.  When at least one field is there, the report is
    rendered and every missing field is shown with its default.  The empty
    record is not rendered: the page shows the notice and the raw reply. *)
Theorem partial_report_rendering (d : dict) (response_text : text) :
  partial_report d = true ->
  (d <> [] ->
   exists es,
     show_result (Some (VDict d)) response_text = (es, Ok tt)
     /\ defaults_shown d es)
  /\ (d = [] ->
      show_result (Some (VDict d)) response_text
      = ([StWarning [Lit (lit "Could not parse JSON. Displaying full output:")];
          StWrite [Lit response_text]], Ok tt)).
Proof.
  intros Hshape. split.
  - intros Hne. destruct d as [|kv d']; [easy|].
    cbn [show_result truthy]. now apply render_report_ok.
  - intros ->. reflexivity.
Qed.

Lemma partial_report_rendering_witness :
  partial_report TWO_FIELD_REPORT = true
  /\ TWO_FIELD_REPORT <> []
  /\ exists es,
      show_result (Some (VDict TWO_FIELD_REPORT)) IDLI_REPLY = (es, Ok tt)
      /\ defaults_shown TWO_FIELD_REPORT es.
Proof.
  assert (H1 : partial_report TWO_FIELD_REPORT = true) by reflexivity.
  assert (H2 : TWO_FIELD_REPORT <> []) by discriminate.
  exact (conj H1 (conj H2
           (proj1 (partial_report_rendering TWO_FIELD_REPORT IDLI_REPLY H1) H2))).
Defined.

(** C7, as stated, fails for the empty record: it is a report with every
    field missing, the extractor decodes it, and none of the defaults is
    shown for it. *)
Lemma partial_report_rendering_counterexample :
  partial_report [] = true
  /\ safe_json_parse EMPTY_OBJECT_REPLY = ([], Ok (Some (VDict [])))
  /\ respond EMPTY_OBJECT_REPLY
     = ([StWarning [Lit (lit "Could not parse JSON. Displaying full output:")];
         StWrite [Lit EMPTY_OBJECT_REPLY]], Ok tt)
  /\ ~ defaults_shown [] (fst (respond EMPTY_OBJECT_REPLY)).
Proof.
  split; [reflexivity|]. split; [vm_compute; reflexivity|].
  split; [vm_compute; reflexivity|].
  intros [H _]. specialize (H eq_refl). vm_compute in H.
  destruct H as [H|[H|[]]]; discriminate H.
Qed.

(** C10.  When the extractor decodes the empty object from a reply, the
    page shows the notice and the raw reply, not the report: an empty
    [dict] is false. *)
Theorem empty_object_falls_back (response_text : text) (es : list event) :
  safe_json_parse response_text = (es, Ok (Some (VDict []))) ->
  respond response_text
  = (es ++ [StWarning [Lit (lit "Could not parse JSON. Displaying full output:")];
            StWrite [Lit response_text]], Ok tt).
Proof.
  intros H. unfold respond. now apply bind_ok with (a := Some (VDict [])).
Qed.

Lemma empty_object_falls_back_witness :
  safe_json_parse EMPTY_OBJECT_REPLY = ([], Ok (Some (VDict [])))
  /\ respond EMPTY_OBJECT_REPLY
     = ([] ++ [StWarning [Lit (lit "Could not parse JSON. Displaying full output:")];
               StWrite [Lit EMPTY_OBJECT_REPLY]], Ok tt).
Proof.
  assert (H : safe_json_parse EMPTY_OBJECT_REPLY = ([], Ok (Some (VDict []))))
    by (vm_compute; reflexivity).
  exact (conj H (empty_object_falls_back EMPTY_OBJECT_REPLY [] H)).
Defined.

(** ** Model calls *)

Lemma model_calls_app (es1 es2 : list event) :
  model_calls (es1 ++ es2) = model_calls es1 ++ model_calls es2.
Proof.
  induction es1 as [|e es1 IH]; [reflexivity|].
  cbn [app]. destruct e; cbn [model_calls]; try exact IH.
  cbn [app]. now rewrite IH.
Qed.

Lemma quiet_bind {A B} (m : M A) (k : A -> M B) :
  quiet m -> (forall a, quiet (k a)) -> quiet (bind m k).
Proof.
  unfold quiet. destruct m as [es [a|e]]; cbn [bind fst]; intros Hm Hk; [|exact Hm].
  specialize (Hk a). destruct (k a) as [es' r]. cbn [fst] in *.
  now rewrite model_calls_app, Hm, Hk.
Qed.

Lemma quiet_lift {A} (r : result A) : quiet (lift r).
Proof. reflexivity. Qed.

Lemma quiet_ret {A} (a : A) : quiet (ret a).
Proof. reflexivity. Qed.

Lemma quiet_emit (e : event) : model_calls [e] = [] -> quiet (emit e).
Proof. intros H. exact H. Qed.

Lemma quiet_for_each {A} (l : list A) (body : A -> M unit) :
  (forall x, quiet (body x)) -> quiet (for_each l body).
Proof.
  intros H. induction l as [|x l IH]; [reflexivity|].
  cbn [for_each]. apply quiet_bind; [apply H | intros _; exact IH].
Qed.

Lemma quiet_with_block {A} (enter leave : event) (m : M A) :
  model_calls [enter] = [] -> model_calls [leave] = [] ->
  quiet m -> quiet (with_block enter leave m).
Proof.
  unfold quiet. destruct m as [es r]. cbn [with_block fst]. intros He Hl Hm.
  change (enter :: es ++ [leave]) with ([enter] ++ es ++ [leave]).
  now rewrite !model_calls_app, He, Hl, Hm.
Qed.

Lemma quiet_st_progress (v : value) : quiet (st_progress v).
Proof. unfold st_progress. now destruct (match v with VInt _ => _ | _ => _ end). Qed.

Ltac quiet_step :=
  first
    [ apply quiet_lift
    | apply quiet_ret
    | apply quiet_st_progress
    | apply quiet_emit; reflexivity
    | apply quiet_with_block; [reflexivity | reflexivity | ]
    | apply quiet_for_each; intros
    | apply quiet_bind; [ | intros ]
    | match goal with
      | |- quiet (if ?c then _ else _) => destruct c
      | |- quiet (let '(_, _) := ?x in _) => destruct x
      end ].

Lemma quiet_render_report (v : value) : quiet (render_report v).
Proof.
  unfold render_report, show_dish_and_ingredients, show_serving_and_macros,
    show_micros, show_allergens, show_confidence, show_portion, show_verdict,
    show_advice, show_verdict_again, show_macro, show_micro.
  repeat quiet_step.
Qed.

Lemma quiet_respond (response_text : text) : quiet (respond response_text).
Proof.
  unfold respond. apply quiet_bind.
  - unfold safe_json_parse, lift.
    now destruct (safe_json_parse_try response_text).
  - intros [v|]; cbn [show_result]; [destruct (truthy v)|];
      try apply quiet_render_report; reflexivity.
Qed.

(** Preparing the image returns, with the image or without, and calls the
    model nowhere. *)
Lemma prepare_image_returns (w : world) (file : list N) :
  exists es image,
    prepare_image w file = (es, Ok image) /\ model_calls es = [].
Proof.
  unfold prepare_image. cbn [emit lift bind try_except].
  destruct (pil_png w file); cbn [ret app]; eexists; eexists; split;
    reflexivity.
Qed.

(** The guarded call and what follows it call the model once, with the
    prompt and the image they are given. *)
Lemma one_call (w : world) (prompt : text) (image : option image_part) :
  model_calls
    (fst (with_block (SpinnerEnter [Lit (lit "Analyzing... please wait ⏳")])
            SpinnerLeave
            (try_except
               (bind (call_gemini w prompt image) respond)
               (fun e => emit (StError [Lit (lit "❌ Error: "); ErrOf e])))))
  = [(prompt, image)].
Proof.
  unfold call_gemini. cbn [emit lift bind].
  destruct (gemini w prompt image) as [t|e]; cbn [app try_except bind].
  - pose proof (quiet_respond t) as Hq. unfold quiet in Hq.
    destruct (respond t) as [es [[]|e]]; cbn [fst] in Hq;
      cbn [try_except emit with_block fst model_calls app];
      rewrite !model_calls_app, Hq; reflexivity.
  - reflexivity.
Qed.

(** C6.  In a run of the analysis with an empty dish name and no image, the
    page shows a warning and the model is not called.  With a dish name or
    an image, the model is called, once, with the prompt of the form. *)
Theorem analysis_needs_dish_or_image (w : world) (f : form) :
  analyze f = true ->
  (dish_name f = [] -> uploaded_file f = None ->
   run_analysis w f
   = ([StWarning [Lit (lit "Please provide a dish name or upload an image.")]],
      Ok tt)
   /\ model_calls (fst (run_analysis w f)) = [])
  /\ (dish_name f <> [] \/ uploaded_file f <> None ->
      exists image,
        model_calls (fst (run_analysis w f)) = [(full_prompt f, image)]).
Proof.
  intros Ha. unfold run_analysis. rewrite Ha. split.
  - intros -> ->. split; reflexivity.
  - intros Hin.
    assert (Hc : negb (nonempty (dish_name f)
                       || match uploaded_file f with
                          | Some _ => true
                          | None => false
                          end) = false).
    { destruct Hin as [H|H].
      - destruct (dish_name f); [easy|reflexivity].
      - destruct (uploaded_file f); [|easy]. now rewrite orb_true_r. }
    rewrite Hc.
    destruct (uploaded_file f) as [file|].
    + destruct (prepare_image_returns w file) as (es & image & -> & Hq).
      exists image. cbn [bind].
      pose proof (one_call w (full_prompt f) image) as H1.
      destruct (with_block _ _ _) as [es' r]. cbn [fst] in *.
      now rewrite model_calls_app, Hq, H1.
    + exists None. cbn [bind ret].
      pose proof (one_call w (full_prompt f) None) as H1.
      destruct (with_block _ _ _) as [es' r]. cbn [fst app] in *. exact H1.
Qed.

Lemma analysis_needs_dish_or_image_witness :
  (analyze IDLI_FORM = true
   /\ (dish_name IDLI_FORM <> [] \/ uploaded_file IDLI_FORM <> None)
   /\ exists image,
       model_calls (fst (run_analysis SCENARIO_WORLD IDLI_FORM))
       = [(full_prompt IDLI_FORM, image)])
  /\ (analyze EMPTY_FORM = true
      /\ dish_name EMPTY_FORM = []
      /\ uploaded_file EMPTY_FORM = None
      /\ model_calls (fst (run_analysis SCENARIO_WORLD EMPTY_FORM)) = []).
Proof.
  assert (H1 : analyze IDLI_FORM = true) by reflexivity.
  assert (H2 : dish_name IDLI_FORM <> [] \/ uploaded_file IDLI_FORM <> None)
    by (left; discriminate).
  assert (H3 : analyze EMPTY_FORM = true) by reflexivity.
  assert (H4 : dish_name EMPTY_FORM = []) by reflexivity.
  assert (H5 : uploaded_file EMPTY_FORM = None) by reflexivity.
  split.
  - exact (conj H1 (conj H2
             (proj2 (analysis_needs_dish_or_image SCENARIO_WORLD IDLI_FORM H1)
                H2))).
  - exact (conj H3 (conj H4 (conj H5
             (proj2 (proj1 (analysis_needs_dish_or_image SCENARIO_WORLD
                              EMPTY_FORM H3) H4 H5))))).
Defined.

(** ** The confidence section *)

(** C8, as the code has it.  For a record whose overall confidence is 0.83
    and whose calories confidence is 0.7, the progress bar is given 0.83
    and the caption shows 70% for the calories; the caption shows the
    ingredients confidence next to it, 0% when it is missing and 83% when
    it is 0.83, and does not show the overall confidence. *)
Theorem confidence_rendering (d conf : dict) (ingredients : option value) :
  dict_get d (lit "confidence") = Some (VDict conf) ->
  dict_get conf (lit "overall") = Some (VFloat F083) ->
  dict_get conf (lit "calories") = Some (VFloat F07) ->
  dict_get conf (lit "ingredients") = ingredients ->
  ingredients = None \/ ingredients = Some (VFloat F083) ->
  show_confidence (VDict d)
  = ([StMarkdown [Lit (lit "#### 📊 Confidence")];
      StProgress (VFloat F083);
      StCaption [Lit (lit "Calories confidence: "); Lit (lit "70");
                 Lit (lit "% | Ingredients confidence: ");
                 Lit (match ingredients with
                      | None => lit "0"
                      | Some _ => lit "83"
                      end);
                 Lit (lit "%")]], Ok tt).
Proof.
  intros Hc Ho Hk Hi Hcase.
  assert (Hp : st_progress (VFloat F083) = ([StProgress (VFloat F083)], Ok tt))
    by (vm_compute; reflexivity).
  assert (H70 : py_format_0f (VFloat (SFmul prec emax F07 HUNDRED))
                = Ok (lit "70")) by (vm_compute; reflexivity).
  assert (H83 : py_format_0f (VFloat (SFmul prec emax F083 HUNDRED))
                = Ok (lit "83")) by (vm_compute; reflexivity).
  assert (H0 : py_format_0f (VFloat (SFmul prec emax (S754_zero false) HUNDRED))
               = Ok (lit "0")) by (vm_compute; reflexivity).
  assert (Ec : dict_get_default d (lit "confidence") (VDict []) = VDict conf)
    by (unfold dict_get_default; now rewrite Hc).
  assert (Eo : dict_get_default conf (lit "overall") ZERO = VFloat F083)
    by (unfold dict_get_default; now rewrite Ho).
  assert (Ek : dict_get_default conf (lit "calories") ZERO = VFloat F07)
    by (unfold dict_get_default; now rewrite Hk).
  unfold show_confidence. run. rewrite Ec. run. rewrite Eo, Hp. run.
  rewrite Ek. cbn [py_times_100]. run. rewrite H70. run.
  unfold dict_get_default. rewrite Hi.
  destruct Hcase as [-> | ->]; unfold ZERO; cbn [py_times_100]; run.
  - rewrite H0. reflexivity.
  - rewrite H83. reflexivity.
Qed.

Lemma confidence_rendering_witness :
  dict_get CONFIDENCE_RECORD (lit "confidence") = Some (VDict CONFIDENCE_FIELDS)
  /\ dict_get CONFIDENCE_FIELDS (lit "overall") = Some (VFloat F083)
  /\ dict_get CONFIDENCE_FIELDS (lit "calories") = Some (VFloat F07)
  /\ dict_get CONFIDENCE_FIELDS (lit "ingredients") = None
  /\ show_confidence (VDict CONFIDENCE_RECORD)
     = ([StMarkdown [Lit (lit "#### 📊 Confidence")];
         StProgress (VFloat F083);
         StCaption [Lit (lit "Calories confidence: "); Lit (lit "70");
                    Lit (lit "% | Ingredients confidence: "); Lit (lit "0");
                    Lit (lit "%")]], Ok tt).
Proof.
  assert (H1 : dict_get CONFIDENCE_RECORD (lit "confidence")
               = Some (VDict CONFIDENCE_FIELDS)) by reflexivity.
  assert (H2 : dict_get CONFIDENCE_FIELDS (lit "overall") = Some (VFloat F083))
    by reflexivity.
  assert (H3 : dict_get CONFIDENCE_FIELDS (lit "calories") = Some (VFloat F07))
    by reflexivity.
  assert (H4 : dict_get CONFIDENCE_FIELDS (lit "ingredients") = None)
    by reflexivity.
  exact (conj H1 (conj H2 (conj H3 (conj H4
           (confidence_rendering CONFIDENCE_RECORD CONFIDENCE_FIELDS None
              H1 H2 H3 H4 (or_introl eq_refl)))))).
Defined.

(** C8, as stated, fails: the reply with an overall confidence of 0.83 and
    a calories confidence of 0.7 decodes to that record, the progress bar
    is given 0.83, and the one caption that is shown reads 70% and 0% and
    has no 83% in it. *)
Lemma confidence_rendering_counterexample :
  safe_json_parse CONFIDENCE_REPLY = ([], Ok (Some (VDict CONFIDENCE_RECORD)))
  /\ In (StProgress (VFloat F083)) (fst (respond CONFIDENCE_REPLY))
  /\ captions (fst (respond CONFIDENCE_REPLY))
     = [lit "Calories confidence: 70% | Ingredients confidence: 0%"]
  /\ contains (lit "83%")
       (lit "Calories confidence: 70% | Ingredients confidence: 0%") = false.
Proof.
  split; [vm_compute; reflexivity|].
  split; [vm_compute; tauto|].
  split; vm_compute; reflexivity.
Qed.

(** ** The recursion budget of the decoder is never exhausted *)

Lemma skip_ws_length (s : text) : (List.length (skip_ws s) <= List.length s)%nat.
Proof.
  induction s as [|c s IH]; cbn [skip_ws]; [lia|].
  destruct (is_json_ws c); cbn [List.length]; lia.
Qed.

Lemma span_digits_length (s ds r : text) :
  span_digits s = (ds, r) -> (List.length r <= List.length s)%nat.
Proof.
  revert ds r. induction s as [|c s IH]; intros ds r; cbn [span_digits].
  - intros [= <- <-]. cbn. lia.
  - destruct (is_digit c).
    + destruct (span_digits s) as [ds' r'] eqn:E. intros [= <- <-].
      specialize (IH _ _ eq_refl). cbn [List.length]. lia.
    + intros [= <- <-]. lia.
Qed.

Lemma scanstring_shorter (n : nat) :
  forall s acc,
    (List.length s <= n)%nat ->
    (forall t r, scanstring s acc = Ok (t, r) ->
                 (List.length r < List.length s)%nat)
    /\ scanstring s acc <> Raise FuelExhausted.
Proof.
  induction n as [|n IH]; intros s acc Hn.
  - destruct s; [|cbn in Hn; lia]. split; [|easy]. cbn. discriminate.
  - destruct s as [|c r]; [split; [cbn; discriminate | easy]|].
    cbn [List.length] in Hn.
    assert (Hrec : forall s' acc',
               (List.length s' <= List.length r)%nat ->
               (forall t r', scanstring s' acc' = Ok (t, r') ->
                             (List.length r' < S (List.length r))%nat)
               /\ scanstring s' acc' <> Raise FuelExhausted).
    { intros s' acc' Hs'. destruct (IH s' acc') as [H1 H2]; [lia|].
      split; [|exact H2]. intros t r' H. specialize (H1 _ _ H). lia. }
    cbn [scanstring List.length].
    repeat match goal with
      | |- context [match ?x with _ => _ end] =>
          lazymatch x with
          | scanstring _ _ => fail
          | _ => destruct x eqn:?
          end
      | |- context [if ?x then _ else _] => destruct x eqn:?
      end;
      try (split; [intros ? ?; discriminate | discriminate]);
      try (split; [intros ? ? [= <- <-]; lia | discriminate]);
      try (apply Hrec; subst; cbn [List.length]; lia).
Qed.

Lemma scanstring_ok_shorter (s acc t r : text) :
  scanstring s acc = Ok (t, r) -> (List.length r < List.length s)%nat.
Proof. apply (scanstring_shorter (List.length s) s acc (le_n _)). Qed.

Lemma scanstring_fuel (s acc : text) : scanstring s acc <> Raise FuelExhausted.
Proof. apply (scanstring_shorter (List.length s) s acc (le_n _)). Qed.

Lemma match_number_shorter (s : text) :
  (forall v r, match_number s = Ok (v, r) ->
               (List.length r < List.length s)%nat)
  /\ match_number s <> Raise FuelExhausted.
Proof.
  unfold match_number.
  repeat match goal with
    | |- context [match ?x with _ => _ end] =>
        lazymatch x with
        | context [match _ with _ => _ end] => fail
        | context [if _ then _ else _] => fail
        | _ => destruct x eqn:?
        end
    | |- context [if ?x then _ else _] =>
        lazymatch x with
        | context [match _ with _ => _ end] => fail
        | context [if _ then _ else _] => fail
        | _ => destruct x eqn:?
        end
    end;
    (split; [|discriminate]); intros v0 r0 H0; try discriminate H0;
    injection H0 as <- <-;
    repeat match goal with
      | H : span_digits _ = _ |- _ => apply span_digits_length in H
      | H : (_, _) = (_, _) |- _ => injection H as <- <-
      | H : Some _ = Some _ |- _ => injection H as <-
      | H : Some _ = None |- _ => discriminate H
      | H : None = Some _ |- _ => discriminate H
      end;
    subst; cbn [List.length] in *; lia.
Qed.

Lemma skipn_cons_shorter (k : nat) (c : char) (r : text) :
  (List.length (skipn (S k) (c :: r)) < List.length (c :: r))%nat.
Proof. cbn [skipn List.length]. rewrite length_skipn. lia. Qed.

Lemma consumes_weaken (s s' : text) (o : result (value * text)) :
  (List.length s' <= List.length s)%nat -> consumes s' o -> consumes s o.
Proof.
  intros Hl [H1 H2]. split; [|exact H2].
  intros v r E. specialize (H1 v r E). lia.
Qed.

Lemma scanner_budget (fuel : nat) :
  (forall s, (2 * List.length s + 1 <= fuel)%nat ->
             consumes s (scan_once fuel s))
  /\ (forall s acc, (2 * List.length s + 2 <= fuel)%nat ->
                    consumes s (object_members fuel s acc))
  /\ (forall s acc, (2 * List.length s + 2 <= fuel)%nat ->
                    consumes s (array_items fuel s acc)).
Proof.
  induction fuel as [|n (IHs & IHo & IHa)].
  - repeat split; intros; lia.
  - split; [|split].
    + intros [|c r] Hf; cbn [scan_once]; [split; discriminate|].
      cbn [List.length] in Hf.
      destruct (c =? DQUOTE)%N.
      { destruct (scanstring r []) as [[t r']|e] eqn:E.
        - apply scanstring_ok_shorter in E. split; [|discriminate].
          intros v r0 [= <- <-]. cbn [List.length]. lia.
        - split; [discriminate|]. intros [= ->].
          now apply (scanstring_fuel r []). }
      destruct (c =? ch "{")%N.
      { cbv zeta. pose proof (skip_ws_length r) as L.
        destruct (starts_with (lit "}") (skip_ws r)) eqn:Es.
        - destruct (skip_ws r) as [|c' r']; [discriminate Es|].
          cbn [skipn List.length] in *.
          split; [|discriminate]. intros v r0 [= <- <-].
          cbn [List.length]. lia.
        - apply (consumes_weaken _ (skip_ws r)); [cbn [List.length]; lia|].
          apply IHo. lia. }
      destruct (c =? ch "[")%N.
      { cbv zeta. pose proof (skip_ws_length r) as L.
        destruct (starts_with (lit "]") (skip_ws r)) eqn:Es.
        - destruct (skip_ws r) as [|c' r']; [discriminate Es|].
          cbn [skipn List.length] in *.
          split; [|discriminate]. intros v r0 [= <- <-].
          cbn [List.length]. lia.
        - apply (consumes_weaken _ (skip_ws r)); [cbn [List.length]; lia|].
          apply IHa. lia. }
      repeat match goal with
        | |- context [if ?x then _ else _] => destruct x
        end;
        try (split; [|discriminate]; intros v r0 H;
             match type of H with
             | Ok (_, ?t) = Ok (_, _) =>
                 assert (Hr : r0 = t) by congruence; rewrite Hr
             end;
             apply skipn_cons_shorter).
      apply match_number_shorter.
    + intros [|c r] acc Hf; cbn [object_members]; [split; discriminate|].
      cbn [List.length] in Hf.
      destruct (c =? DQUOTE)%N; [|split; discriminate].
      destruct (scanstring r []) as [[key r1]|e] eqn:E;
        [|split; [discriminate|]; intros [= ->];
          now apply (scanstring_fuel r [])].
      apply scanstring_ok_shorter in E.
      pose proof (skip_ws_length r1) as L1.
      destruct (skip_ws r1) as [|c2 r2]; [split; discriminate|].
      cbn [List.length] in L1.
      destruct (c2 =? ch ":")%N; [|split; discriminate].
      pose proof (skip_ws_length r2) as L2.
      destruct (IHs (skip_ws r2)) as [Hs1 Hs2]; [lia|].
      destruct (scan_once n (skip_ws r2)) as [[v r3]|e];
        [|split; [discriminate|]; intros [= ->]; now apply Hs2].
      specialize (Hs1 v r3 eq_refl). cbv zeta.
      pose proof (skip_ws_length r3) as L3.
      destruct (skip_ws r3) as [|c4 r4]; [split; discriminate|].
      cbn [List.length] in L3.
      destruct (c4 =? ch "}")%N.
      { split; [|discriminate]. intros v0 r0 [= <- <-]. cbn [List.length]. lia. }
      destruct (c4 =? ch ",")%N; [|split; discriminate].
      pose proof (skip_ws_length r4) as L4.
      apply (consumes_weaken _ (skip_ws r4)); [cbn [List.length]; lia|].
      apply IHo. lia.
    + intros s acc Hf. cbn [array_items].
      destruct (IHs s) as [Hs1 Hs2]; [lia|].
      destruct (scan_once n s) as [[v r1]|e];
        [|split; [discriminate|]; intros [= ->]; now apply Hs2].
      specialize (Hs1 v r1 eq_refl).
      pose proof (skip_ws_length r1) as L1.
      destruct (skip_ws r1) as [|c r2]; [split; discriminate|].
      cbn [List.length] in L1.
      destruct (c =? ch "]")%N.
      { split; [|discriminate]. intros v0 r0 [= <- <-]. lia. }
      destruct (c =? ch ",")%N; [|split; discriminate].
      pose proof (skip_ws_length r2) as L2.
      apply (consumes_weaken _ (skip_ws r2)); [lia|].
      apply IHa. lia.
Qed.

(** The budget [json_loads] gives the scanner is enough for every text:
    the marker of an exhausted budget is never what it returns. *)
Theorem json_loads_fuel (s : text) : json_loads s <> Raise FuelExhausted.
Proof.
  unfold json_loads. destruct (starts_with [65279%N] s); [discriminate|].
  cbv zeta.
  destruct (scanner_budget (2 * List.length (skip_ws s) + 2)) as (Hs & _ & _).
  destruct (Hs (skip_ws s)) as [_ Hf]; [lia|].
  destruct (scan_once _ _) as [[v rest]|e].
  - destruct (skip_ws rest); discriminate.
  - destruct e; try discriminate. now contradiction Hf.
Qed.

(** * Further properties of the code *)

(** ** Fence removal leaves no fence marker *)

Section TripleRemoval.

Variable b : char.

Lemma starts_with_triple (c : char) (r : text) :
  starts_with [b; b; b] (c :: r) = ((b =? c)%N && starts_with [b; b] r)%bool.
Proof. reflexivity. Qed.

Lemma triple_removed_step (c : char) (r : text) :
  starts_with [b; b; b] (c :: r) = false ->
  replace_from [b; b; b] [] 0 (c :: r) = c :: replace_from [b; b; b] [] 0 r.
Proof. intros H. cbn [replace_from]. now rewrite H. Qed.

Lemma triple_removed_skip (c : char) (r : text) :
  starts_with [b; b; b] (c :: r) = true ->
  exists r2, r = b :: b :: r2
             /\ replace_from [b; b; b] [] 0 (c :: r) = replace_from [b; b; b] [] 0 r2.
Proof.
  intros H. pose proof H as H'. rewrite starts_with_triple in H'.
  apply andb_true_iff in H'. destruct H' as [_ H'].
  destruct r as [|x [|y r2]]; cbn in H'; try discriminate;
    try (rewrite andb_false_r in H'; discriminate).
  apply andb_true_iff in H'. destruct H' as [Hx Hy].
  rewrite andb_true_r in Hy.
  apply N.eqb_eq in Hx. apply N.eqb_eq in Hy. subst x y.
  exists r2. split; [reflexivity|].
  cbn [replace_from]. rewrite H. reflexivity.
Qed.

(** After the removal no run of three is left, and the result starts with
    one or two of the character only where the text did. *)
Lemma triple_removed (n : nat) :
  forall s, (List.length s <= n)%nat ->
    find_nat [b; b; b] (replace_from [b; b; b] [] 0 s) = None
    /\ (starts_with [b] s = false ->
        starts_with [b] (replace_from [b; b; b] [] 0 s) = false)
    /\ (starts_with [b; b] s = false ->
        starts_with [b; b] (replace_from [b; b; b] [] 0 s) = false).
Proof.
  induction n as [|n IH]; intros s Hn.
  - destruct s; [|cbn in Hn; lia]. repeat split; reflexivity.
  - destruct s as [|c r]; [repeat split; reflexivity|].
    cbn [List.length] in Hn.
    destruct (starts_with [b; b; b] (c :: r)) eqn:E.
    + destruct (triple_removed_skip c r E) as (r2 & -> & ->).
      rewrite starts_with_triple in E. apply andb_true_iff in E.
      destruct E as [Ec _]. cbn [List.length] in Hn.
      destruct (IH r2) as (H1 & _ & _); [lia|].
      split; [exact H1|].
      split; intros H; cbn [starts_with] in H;
        rewrite Ec, ?N.eqb_refl in H; discriminate H.
    + rewrite (triple_removed_step c r E).
      destruct (IH r) as (H1 & H2 & H3); [lia|].
      rewrite starts_with_triple in E.
      split; [|split].
      * cbn [find_nat]. rewrite starts_with_triple.
        destruct (b =? c)%N; cbn [andb] in *.
        -- rewrite (H3 E). now rewrite H1.
        -- now rewrite H1.
      * cbn [starts_with]. now destruct (b =? c)%N.
      * cbn [starts_with]. destruct (b =? c)%N; cbn [andb]; [exact H2|easy].
Qed.

End TripleRemoval.

(** X1.  Whatever the reply, the text the extractor searches for braces
    holds no fence marker any more: neither three backquotes in a row nor
    the opener of a JSON block. *)
Theorem unfenced_has_no_fence (raw_text : text) :
  contains FENCE (unfenced raw_text) = false
  /\ contains FENCE_JSON (unfenced raw_text) = false.
Proof.
  assert (H : find_nat FENCE (unfenced raw_text) = None).
  { unfold unfenced.
    change (replace ?s FENCE []) with (replace_from FENCE [] 0 s).
    change FENCE with [ch "`"; ch "`"; ch "`"].
    apply (triple_removed (ch "`") _ _ (le_n _)). }
  unfold contains. split.
  - now rewrite H.
  - change FENCE_JSON with (FENCE ++ lit "json").
    now rewrite (find_nat_none_longer _ _ _ H).
Qed.

(** ** White space around the reply *)

Lemma lstrip_spaces (ws s : text) :
  forallb is_space ws = true -> lstrip (ws ++ s) = lstrip s.
Proof.
  induction ws as [|c ws IH]; cbn [forallb app lstrip]; [easy|].
  intros H. apply andb_true_iff in H. destruct H as [-> H]. now apply IH.
Qed.

Lemma rstrip_spaces (s ws : text) :
  forallb is_space ws = true -> rstrip (s ++ ws) = rstrip s.
Proof.
  intros H. unfold rstrip. rewrite rev_app_distr.
  rewrite lstrip_spaces; [reflexivity|].
  rewrite forallb_forall in *. intros x Hx. apply H. now apply in_rev.
Qed.

Lemma lstrip_app (s t : text) :
  lstrip (s ++ t) = match lstrip s with
                    | [] => lstrip t
                    | _ :: _ => lstrip s ++ t
                    end.
Proof.
  induction s as [|c s IH]; cbn [app lstrip]; [now destruct (lstrip t)|].
  destruct (is_space c); [exact IH | reflexivity].
Qed.

Lemma strip_padded (ws1 s ws2 : text) :
  forallb is_space ws1 = true -> forallb is_space ws2 = true ->
  strip (ws1 ++ s ++ ws2) = strip s.
Proof.
  intros H1 H2. unfold strip. rewrite (lstrip_spaces _ _ H1), lstrip_app.
  destruct (lstrip s) as [|c r] eqn:E.
  - rewrite <- (app_nil_r ws2), (lstrip_spaces _ _ H2). reflexivity.
  - now apply rstrip_spaces.
Qed.

(** X2.  White space before and after the reply makes no difference to
    what the extractor returns and shows. *)
Theorem safe_json_parse_ignores_padding (ws1 raw_text ws2 : text) :
  forallb is_space ws1 = true ->
  forallb is_space ws2 = true ->
  safe_json_parse (ws1 ++ raw_text ++ ws2) = safe_json_parse raw_text.
Proof.
  intros H1 H2. unfold safe_json_parse, safe_json_parse_try, unfenced.
  now rewrite (strip_padded _ _ _ H1 H2).
Qed.

Lemma safe_json_parse_ignores_padding_witness :
  forallb is_space (lit "
  ") = true
  /\ forallb is_space [LF] = true
  /\ safe_json_parse (lit "
  " ++ BRACES_OBJECT ++ [LF]) = safe_json_parse BRACES_OBJECT.
Proof.
  assert (H1 : forallb is_space (lit "
  ") = true) by reflexivity.
  assert (H2 : forallb is_space [LF] = true) by reflexivity.
  exact (conj H1 (conj H2
           (safe_json_parse_ignores_padding _ BRACES_OBJECT _ H1 H2))).
Defined.

(** ** What the prompt carries *)

(** X3.  A field of the profile that is there is put into the prompt as
    [str] prints it, at its place in the context clause: between the words
    that precede and follow that field. *)
Theorem build_prompt_inserts_values
  (dish : text) (p : profile) (key before default after : text) (v : field) :
  In (key, before, default, after) PROFILE_SLOTS ->
  dict_get p key = Some v ->
  contains (before ++ str_of_field v ++ after) (build_prompt dish p) = true.
Proof.
  intros Hin Hget. rewrite build_prompt_eq.
  do 3 apply contains_app_r.
  unfold user_context. rewrite <- !app_assoc.
  generalize (removelast PROMPT_TAIL) as t. intros t.
  unfold PROFILE_SLOTS in Hin. cbn [In] in Hin.
  repeat (destruct Hin as [Hin|Hin];
          [ injection Hin as <- <- <- <-; unfold profile_get;
            rewrite Hget; find_piece | ]).
  destruct Hin.
Qed.

Lemma build_prompt_inserts_values_witness :
  In (lit "age", lit "User: ", lit "?", lit " yrs, ") PROFILE_SLOTS
  /\ dict_get (user_info_of IDLI_FORM) (lit "age") = Some (FInt 25)
  /\ contains (lit "User: " ++ str_of_field (FInt 25) ++ lit " yrs, ")
       (build_prompt (lit "idli") (user_info_of IDLI_FORM)) = true.
Proof.
  assert (H1 : In (lit "age", lit "User: ", lit "?", lit " yrs, ")
                 PROFILE_SLOTS) by (left; reflexivity).
  assert (H2 : dict_get (user_info_of IDLI_FORM) (lit "age") = Some (FInt 25))
    by reflexivity.
  exact (conj H1 (conj H2
           (build_prompt_inserts_values (lit "idli") (user_info_of IDLI_FORM)
              _ _ _ _ _ H1 H2))).
Defined.

(** X4.  The prompt starts with the opening sentence, in which the dish
    name stands between double quotes exactly as it was typed: nothing in
    it is escaped or trimmed. *)
Theorem build_prompt_quotes_dish (dish : text) (p : profile) :
  starts_with
    (litq "You are a nutrition expert. Analyze the dish '" ++ dish
     ++ litq "' and return **valid JSON only**.")
    (build_prompt dish p) = true.
Proof.
  rewrite build_prompt_eq.
  assert (Hh : skipn 1 PROMPT_HEAD
               = litq "You are a nutrition expert. Analyze the dish '")
    by (vm_compute; reflexivity).
  assert (Hf : PROMPT_FORMAT
               = litq "' and return **valid JSON only**."
                 ++ skipn 33 PROMPT_FORMAT)
    by (vm_compute; reflexivity).
  rewrite Hh, Hf.
  generalize (skipn 33 PROMPT_FORMAT) as fmt. intros fmt.
  generalize (litq "You are a nutrition expert. Analyze the dish '") as a.
  generalize (litq "' and return **valid JSON only**.") as q. intros q a.
  replace (a ++ dish ++ (q ++ fmt) ++ user_context p ++ removelast PROMPT_TAIL)
    with ((a ++ dish ++ q) ++ fmt ++ user_context p ++ removelast PROMPT_TAIL)
    by (now rewrite <- !app_assoc).
  apply starts_with_self.
Qed.

Lemma strip_nonempty (s : text) :
  nonempty (strip s) = negb (forallb is_space s).
Proof.
  unfold strip. induction s as [|c s IH]; [reflexivity|].
  cbn [lstrip forallb]. destruct (is_space c) eqn:E; [exact IH|].
  cbn [andb negb].
  change (c :: s) with ([] ++ c :: s).
  rewrite (rstrip_app_nonspace [] s c E). reflexivity.
Qed.

(** X5.  Notes that are empty or white space only add nothing to the
    prompt; other notes are added on a line of their own after the built
    prompt, trimmed. *)
Theorem full_prompt_notes (f : form) :
  full_prompt f
  = build_prompt (dish_name f) (user_info_of f)
    ++ (if forallb is_space (notes f) then []
        else lit "
Additional context: " ++ strip (notes f)).
Proof.
  unfold full_prompt. cbv zeta. rewrite strip_nonempty.
  destruct (forallb is_space (notes f)); cbn [negb]; [|reflexivity].
  now rewrite app_nil_r.
Qed.

(** ** The run of an analysis *)

Lemma image_step_returns (w : world) (f : form) :
  exists es image, image_step w f = (es, Ok image) /\ model_calls es = [].
Proof.
  unfold image_step. destruct (uploaded_file f) as [file|].
  - apply prepare_image_returns.
  - now exists [], None.
Qed.

Lemma guarded_call_failed (w : world) prompt image e :
  gemini w prompt image = Raise e ->
  guarded_call w prompt image
  = ([GenerateContent prompt image; StError [Lit (lit "❌ Error: "); ErrOf e]],
     Ok tt).
Proof.
  intros H. unfold guarded_call, call_gemini. cbn [emit lift bind].
  rewrite H. reflexivity.
Qed.

Lemma guarded_call_shown (w : world) prompt image raw rs :
  gemini w prompt image = Ok raw ->
  respond raw = (rs, Ok tt) ->
  guarded_call w prompt image = (GenerateContent prompt image :: rs, Ok tt).
Proof.
  intros H Hr. unfold guarded_call, call_gemini. cbn [emit lift bind].
  rewrite H. cbn [bind]. rewrite Hr. reflexivity.
Qed.

Lemma guarded_call_caught (w : world) prompt image raw rs e :
  gemini w prompt image = Ok raw ->
  respond raw = (rs, Raise e) ->
  guarded_call w prompt image
  = (GenerateContent prompt image
       :: rs ++ [StError [Lit (lit "❌ Error: "); ErrOf e]], Ok tt).
Proof.
  intros H Hr. unfold guarded_call, call_gemini. cbn [emit lift bind].
  rewrite H. cbn [bind]. rewrite Hr. cbn [app try_except emit].
  reflexivity.
Qed.

Lemma guarded_call_returns (w : world) prompt image :
  exists es, guarded_call w prompt image = (es, Ok tt).
Proof.
  destruct (gemini w prompt image) as [raw|e] eqn:E.
  - destruct (respond raw) as [rs [[]|e]] eqn:Er.
    + eexists. exact (guarded_call_shown w prompt image raw rs E Er).
    + eexists. exact (guarded_call_caught w prompt image raw rs e E Er).
  - eexists. exact (guarded_call_failed w prompt image e E).
Qed.

(** A run with input is the image step, then the guarded call inside the
    spinner. *)
Lemma run_analysis_trace (w : world) (f : form) es image gs :
  analyze f = true -> has_input f = true ->
  image_step w f = (es, Ok image) ->
  guarded_call w (full_prompt f) image = (gs, Ok tt) ->
  run_analysis w f = (es ++ SPINNER :: gs ++ [SpinnerLeave], Ok tt).
Proof.
  intros Ha Hi Hs Hg. unfold run_analysis. rewrite Ha.
  unfold has_input in Hi. rewrite Hi. cbn [negb].
  unfold image_step in Hs. cbv zeta.
  apply bind_ok with (a := image); [exact Hs|].
  change (with_block SPINNER SpinnerLeave (guarded_call w (full_prompt f) image)
          = (SPINNER :: gs ++ [SpinnerLeave], Ok tt)).
  rewrite Hg. reflexivity.
Qed.

Lemma run_analysis_idle (w : world) (f : form) :
  analyze f = false \/ has_input f = false ->
  model_calls (fst (run_analysis w f)) = []
  /\ snd (run_analysis w f) = Ok tt.
Proof.
  unfold run_analysis, has_input.
  destruct (analyze f); intros [H|H]; try discriminate;
    try (split; reflexivity).
  rewrite H. split; reflexivity.
Qed.

(** X6.  A run of the analysis raises nothing, whatever the form, the
    image library and the provider do: every failure on the way ends as a
    message on the page. *)
Theorem run_analysis_returns (w : world) (f : form) :
  snd (run_analysis w f) = Ok tt.
Proof.
  destruct (analyze f) eqn:Ha;
    [|now apply run_analysis_idle; left].
  destruct (has_input f) eqn:Hi;
    [|now apply run_analysis_idle; right].
  destruct (image_step_returns w f) as (es & image & Hs & _).
  destruct (guarded_call_returns w (full_prompt f) image) as [gs Hg].
  now rewrite (run_analysis_trace w f es image gs Ha Hi Hs Hg).
Qed.

Lemma guarded_call_once (w : world) prompt image gs :
  guarded_call w prompt image = (gs, Ok tt) ->
  model_calls gs = [(prompt, image)].
Proof.
  intros Hg. pose proof (one_call w prompt image) as H.
  fold (guarded_call w prompt image) in H. rewrite Hg in H.
  cbn [with_block fst model_calls] in H.
  rewrite model_calls_app in H. cbn [model_calls] in H.
  now rewrite app_nil_r in H.
Qed.

Lemma run_analysis_calls (w : world) (f : form) :
  model_calls (fst (run_analysis w f)) = []
  \/ exists image,
      model_calls (fst (run_analysis w f)) = [(full_prompt f, image)].
Proof.
  destruct (analyze f) eqn:Ha;
    [|left; now apply run_analysis_idle; left].
  destruct (has_input f) eqn:Hi;
    [|left; now apply run_analysis_idle; right].
  destruct (image_step_returns w f) as (es & image & Hs & Hq).
  destruct (guarded_call_returns w (full_prompt f) image) as [gs Hg].
  right. exists image.
  rewrite (run_analysis_trace w f es image gs Ha Hi Hs Hg). cbn [fst].
  change (SPINNER :: gs ++ [SpinnerLeave]) with ([SPINNER] ++ gs ++ [SpinnerLeave]).
  rewrite !model_calls_app, Hq, (guarded_call_once _ _ _ _ Hg). reflexivity.
Qed.

(** X7.  A run calls the model at most once: there is no second attempt,
    whatever the first one returns or raises. *)
Theorem run_analysis_at_most_one_call (w : world) (f : form) :
  (List.length (model_calls (fst (run_analysis w f))) <= 1)%nat.
Proof.
  destruct (run_analysis_calls w f) as [-> | [image ->]]; cbn; lia.
Qed.

Lemma full_prompt_extends (f : form) :
  exists extra,
    full_prompt f = build_prompt (dish_name f) (user_info_of f) ++ extra.
Proof. unfold full_prompt. cbv zeta. destruct (nonempty _); eexists;
  [reflexivity | now rewrite app_nil_r]. Qed.

(** X8.  Whenever the model is called, the prompt it is given starts with
    the built prompt of the form and holds the two sentences that ask for
    JSON only and the whole template of the report, whatever the notes
    are. *)
Theorem sent_prompt_carries_template
  (w : world) (f : form) (prompt : text) (image : option image_part) :
  In (prompt, image) (model_calls (fst (run_analysis w f))) ->
  starts_with (build_prompt (dish_name f) (user_info_of f)) prompt = true
  /\ contains JSON_ONLY_DIRECTIVE prompt = true
  /\ contains SCHEMA_TEMPLATE prompt = true
  /\ contains NO_FENCE_DIRECTIVE prompt = true.
Proof.
  intros Hin.
  assert (Hp : prompt = full_prompt f).
  { destruct (run_analysis_calls w f) as [E | [i E]]; rewrite E in Hin.
    - destruct Hin.
    - destruct Hin as [[= <- _] | []]. reflexivity. }
  subst prompt. destruct (full_prompt_extends f) as [extra ->].
  assert (H1 : contains JSON_ONLY_DIRECTIVE PROMPT_FORMAT = true)
    by (vm_compute; reflexivity).
  assert (H2 : contains SCHEMA_TEMPLATE PROMPT_FORMAT = true)
    by (vm_compute; reflexivity).
  assert (H3 : contains NO_FENCE_DIRECTIVE (removelast PROMPT_TAIL) = true)
    by (vm_compute; reflexivity).
  split; [apply starts_with_self|].
  rewrite build_prompt_eq.
  split; [|split]; apply contains_app_l.
  - do 2 apply contains_app_r. now apply contains_app_l.
  - do 2 apply contains_app_r. now apply contains_app_l.
  - now do 4 apply contains_app_r.
Qed.

Lemma sent_prompt_carries_template_witness :
  In (full_prompt PHOTO_FORM, None)
     (model_calls (fst (run_analysis SCENARIO_WORLD PHOTO_FORM)))
  /\ starts_with (build_prompt (dish_name PHOTO_FORM) (user_info_of PHOTO_FORM))
       (full_prompt PHOTO_FORM) = true
  /\ contains JSON_ONLY_DIRECTIVE (full_prompt PHOTO_FORM) = true
  /\ contains SCHEMA_TEMPLATE (full_prompt PHOTO_FORM) = true
  /\ contains NO_FENCE_DIRECTIVE (full_prompt PHOTO_FORM) = true.
Proof.
  assert (H : In (full_prompt PHOTO_FORM, None)
                (model_calls (fst (run_analysis SCENARIO_WORLD PHOTO_FORM))))
    by (vm_compute; left; reflexivity).
  exact (conj H (sent_prompt_carries_template SCENARIO_WORLD PHOTO_FORM _ _ H)).
Defined.

(** X9.  When the provider fails, the page shows the failure in an error
    box and nothing else for the reply: no warning, no report, no raw
    text; the spinner is left. *)
Theorem provider_failure_is_shown
  (w : world) (f : form) es image (e : exn) :
  analyze f = true -> has_input f = true ->
  image_step w f = (es, Ok image) ->
  gemini w (full_prompt f) image = Raise e ->
  run_analysis w f
  = (es ++ [SPINNER; GenerateContent (full_prompt f) image;
            StError [Lit (lit "❌ Error: "); ErrOf e]; SpinnerLeave], Ok tt).
Proof.
  intros Ha Hi Hs Hg.
  exact (run_analysis_trace w f es image _ Ha Hi Hs
           (guarded_call_failed w _ image e Hg)).
Qed.

Lemma provider_failure_is_shown_witness :
  analyze IDLI_FORM = true
  /\ has_input IDLI_FORM = true
  /\ image_step FAILING_WORLD IDLI_FORM = ([], Ok None)
  /\ gemini FAILING_WORLD (full_prompt IDLI_FORM) None
     = Raise (ProviderError (lit "quota exceeded"))
  /\ run_analysis FAILING_WORLD IDLI_FORM
     = ([] ++ [SPINNER; GenerateContent (full_prompt IDLI_FORM) None;
               StError [Lit (lit "❌ Error: ");
                        ErrOf (ProviderError (lit "quota exceeded"))];
               SpinnerLeave], Ok tt).
Proof.
  assert (H1 : analyze IDLI_FORM = true) by reflexivity.
  assert (H2 : has_input IDLI_FORM = true) by reflexivity.
  assert (H3 : image_step FAILING_WORLD IDLI_FORM = ([], Ok None))
    by reflexivity.
  assert (H4 : gemini FAILING_WORLD (full_prompt IDLI_FORM) None
               = Raise (ProviderError (lit "quota exceeded"))) by reflexivity.
  exact (conj H1 (conj H2 (conj H3 (conj H4
           (provider_failure_is_shown FAILING_WORLD IDLI_FORM [] None _
              H1 H2 H3 H4))))).
Defined.

(** X10.  When the uploaded image cannot be decoded, the page shows a
    warning and the analysis goes on without the image: the model is
    called with the prompt alone. *)
Theorem undecodable_image_is_dropped
  (w : world) (f : form) (file : list N) (e : exn) :
  analyze f = true ->
  uploaded_file f = Some file ->
  pil_png w file = Raise e ->
  exists rest,
    run_analysis w f
    = ([ImageOpen file;
        StWarning [Lit (lit "⚠️ Could not process image: "); ErrOf e];
        SPINNER; GenerateContent (full_prompt f) None] ++ rest, Ok tt).
Proof.
  intros Ha Hu Hp.
  assert (Hi : has_input f = true)
    by (unfold has_input; rewrite Hu; apply orb_true_r).
  assert (Hs : image_step w f
               = ([ImageOpen file;
                   StWarning [Lit (lit "⚠️ Could not process image: ");
                              ErrOf e]], Ok None)).
  { unfold image_step, prepare_image. rewrite Hu.
    cbn [emit lift bind try_except]. rewrite Hp. reflexivity. }
  destruct (guarded_call_returns w (full_prompt f) None) as [gs Hg].
  pose proof (guarded_call_once _ _ _ _ Hg) as Hc.
  rewrite (run_analysis_trace w f _ None gs Ha Hi Hs Hg).
  destruct gs as [|g gs]; [discriminate Hc|].
  assert (Hg1 : g = GenerateContent (full_prompt f) None).
  { revert Hg. unfold guarded_call, call_gemini. cbn [emit lift bind].
    destruct (gemini w (full_prompt f) None) as [raw|e'];
      cbn [bind try_except].
    - destruct (respond raw) as [rs [[]|e']]; cbn [app try_except emit];
        now intros [= <- _].
    - now intros [= <- _]. }
  subst g. exists (gs ++ [SpinnerLeave]). reflexivity.
Qed.

Lemma undecodable_image_is_dropped_witness :
  analyze PHOTO_FORM = true
  /\ uploaded_file PHOTO_FORM = Some [1%N; 2%N; 3%N]
  /\ pil_png SCENARIO_WORLD [1%N; 2%N; 3%N]
     = Raise (ValueError (lit "cannot identify image file"))
  /\ exists rest,
      run_analysis SCENARIO_WORLD PHOTO_FORM
      = ([ImageOpen [1%N; 2%N; 3%N];
          StWarning [Lit (lit "⚠️ Could not process image: ");
                     ErrOf (ValueError (lit "cannot identify image file"))];
          SPINNER; GenerateContent (full_prompt PHOTO_FORM) None] ++ rest,
         Ok tt).
Proof.
  assert (H1 : analyze PHOTO_FORM = true) by reflexivity.
  assert (H2 : uploaded_file PHOTO_FORM = Some [1%N; 2%N; 3%N]) by reflexivity.
  assert (H3 : pil_png SCENARIO_WORLD [1%N; 2%N; 3%N]
               = Raise (ValueError (lit "cannot identify image file")))
    by reflexivity.
  exact (conj H1 (conj H2 (conj H3
           (undecodable_image_is_dropped SCENARIO_WORLD PHOTO_FORM _ _
              H1 H2 H3)))).
Defined.

(** X11.  When the uploaded image decodes, the model is called with the
    prompt and the image as PNG bytes of type [image/png]; no warning comes
    before the call. *)
Theorem decoded_image_is_sent
  (w : world) (f : form) (file bytes : list N) :
  analyze f = true ->
  uploaded_file f = Some file ->
  pil_png w file = Ok bytes ->
  exists rest,
    run_analysis w f
    = ([ImageOpen file; SPINNER;
        GenerateContent (full_prompt f)
          (Some {| mime_type := lit "image/png"; data := bytes |})] ++ rest,
       Ok tt).
Proof.
  intros Ha Hu Hp.
  assert (Hi : has_input f = true)
    by (unfold has_input; rewrite Hu; apply orb_true_r).
  set (img := Some {| mime_type := lit "image/png"; data := bytes |}).
  assert (Hs : image_step w f = ([ImageOpen file], Ok img)).
  { unfold image_step, prepare_image. rewrite Hu.
    cbn [emit lift bind try_except]. rewrite Hp. reflexivity. }
  destruct (guarded_call_returns w (full_prompt f) img) as [gs Hg].
  rewrite (run_analysis_trace w f _ img gs Ha Hi Hs Hg).
  destruct gs as [|g gs];
    [pose proof (guarded_call_once _ _ _ _ Hg) as Hc; discriminate Hc|].
  assert (Hg1 : g = GenerateContent (full_prompt f) img).
  { revert Hg. unfold guarded_call, call_gemini. cbn [emit lift bind].
    destruct (gemini w (full_prompt f) img) as [raw|e'];
      cbn [bind try_except].
    - destruct (respond raw) as [rs [[]|e']]; cbn [app try_except emit];
        now intros [= <- _].
    - now intros [= <- _]. }
  subst g. exists (gs ++ [SpinnerLeave]). reflexivity.
Qed.

Lemma decoded_image_is_sent_witness :
  analyze PHOTO_FORM = true
  /\ uploaded_file PHOTO_FORM = Some [1%N; 2%N; 3%N]
  /\ pil_png PNG_WORLD [1%N; 2%N; 3%N]
     = Ok [137%N; 80%N; 78%N; 71%N; 1%N; 2%N; 3%N]
  /\ exists rest,
      run_analysis PNG_WORLD PHOTO_FORM
      = ([ImageOpen [1%N; 2%N; 3%N]; SPINNER;
          GenerateContent (full_prompt PHOTO_FORM)
            (Some {| mime_type := lit "image/png";
                     data := [137%N; 80%N; 78%N; 71%N; 1%N; 2%N; 3%N] |})]
           ++ rest, Ok tt).
Proof.
  assert (H1 : analyze PHOTO_FORM = true) by reflexivity.
  assert (H2 : uploaded_file PHOTO_FORM = Some [1%N; 2%N; 3%N]) by reflexivity.
  assert (H3 : pil_png PNG_WORLD [1%N; 2%N; 3%N]
               = Ok [137%N; 80%N; 78%N; 71%N; 1%N; 2%N; 3%N]) by reflexivity.
  exact (conj H1 (conj H2 (conj H3
           (decoded_image_is_sent PNG_WORLD PHOTO_FORM _ _ H1 H2 H3)))).
Defined.

(** X12.  When nothing can be extracted from the reply, the page shows the
    warning of the extractor, then the notice, then the reply itself,
    character for character. *)
Theorem unparsed_reply_is_shown_raw
  (w : world) (f : form) es image (raw : text) (e : exn) :
  analyze f = true -> has_input f = true ->
  image_step w f = (es, Ok image) ->
  gemini w (full_prompt f) image = Ok raw ->
  safe_json_parse_try raw = Raise e ->
  run_analysis w f
  = (es ++ [SPINNER; GenerateContent (full_prompt f) image;
            StWarning [Lit (lit "⚠️ JSON parsing failed: "); ErrOf e];
            StWarning [Lit (lit "Could not parse JSON. Displaying full output:")];
            StWrite [Lit raw]; SpinnerLeave], Ok tt).
Proof.
  intros Ha Hi Hs Hg He.
  assert (Hr : respond raw
               = ([StWarning [Lit (lit "⚠️ JSON parsing failed: "); ErrOf e];
                   StWarning [Lit (lit "Could not parse JSON. Displaying full output:")];
                   StWrite [Lit raw]], Ok tt)).
  { unfold respond. rewrite (safe_json_parse_raise raw e He). reflexivity. }
  rewrite (run_analysis_trace w f es image _ Ha Hi Hs
             (guarded_call_shown w _ image raw _ Hg Hr)).
  reflexivity.
Qed.

Lemma unparsed_reply_is_shown_raw_witness :
  analyze IDLI_FORM = true
  /\ has_input IDLI_FORM = true
  /\ image_step REFUSAL_WORLD IDLI_FORM = ([], Ok None)
  /\ gemini REFUSAL_WORLD (full_prompt IDLI_FORM) None
     = Ok (lit "I cannot compute this.")
  /\ safe_json_parse_try (lit "I cannot compute this.")
     = Raise (ValueError (lit "JSON structure not found in model output."))
  /\ run_analysis REFUSAL_WORLD IDLI_FORM
     = ([] ++ [SPINNER; GenerateContent (full_prompt IDLI_FORM) None;
               StWarning [Lit (lit "⚠️ JSON parsing failed: ");
                          ErrOf (ValueError
                                   (lit "JSON structure not found in model output."))];
               StWarning [Lit (lit "Could not parse JSON. Displaying full output:")];
               StWrite [Lit (lit "I cannot compute this.")]; SpinnerLeave],
        Ok tt).
Proof.
  assert (H1 : analyze IDLI_FORM = true) by reflexivity.
  assert (H2 : has_input IDLI_FORM = true) by reflexivity.
  assert (H3 : image_step REFUSAL_WORLD IDLI_FORM = ([], Ok None))
    by reflexivity.
  assert (H4 : gemini REFUSAL_WORLD (full_prompt IDLI_FORM) None
               = Ok (lit "I cannot compute this.")) by reflexivity.
  assert (H5 : safe_json_parse_try (lit "I cannot compute this.")
               = Raise (ValueError
                          (lit "JSON structure not found in model output.")))
    by (vm_compute; reflexivity).
  exact (conj H1 (conj H2 (conj H3 (conj H4 (conj H5
           (unparsed_reply_is_shown_raw REFUSAL_WORLD IDLI_FORM [] None _ _
              H1 H2 H3 H4 H5)))))).
Defined.

(** X13.  When the reply is a record whose ingredients are a number, [None]
    or a boolean instead of a list, the join raises: the page has shown the
    title, the dish line and the ingredients heading by then, it shows the
    error box next and none of the later sections. *)
Theorem wrong_ingredients_stop_the_report
  (w : world) (f : form) es image (raw : text) (d : dict) (v : value) :
  analyze f = true -> has_input f = true ->
  image_step w f = (es, Ok image) ->
  gemini w (full_prompt f) image = Ok raw ->
  safe_json_parse_try raw = Ok (VDict d) ->
  dict_get d (lit "ingredients") = Some v ->
  (is_number v = true \/ v = VNone \/ exists b, v = VBool b) ->
  run_analysis w f
  = (es ++ [SPINNER; GenerateContent (full_prompt f) image;
            StSubheader [Lit (lit "✅ Nutrition Summary (Estimated)")];
            StMarkdown [Lit (lit "### 🍽️ Dish: **");
                        StrOf (dict_get_default d (lit "dish_name")
                                 (VStr (lit "Unknown")));
                        Lit (lit "**")];
            StMarkdown [Lit (lit "#### 🧂 Ingredients")];
            StError [Lit (lit "❌ Error: "); ErrOf TypeError];
            SpinnerLeave], Ok tt).
Proof.
  intros Ha Hi Hs Hg Hp Hv Hty.
  assert (Hd : d <> []) by (intros ->; discriminate Hv).
  assert (Hj : py_join (lit ", ")
                 (dict_get_default d (lit "ingredients") (VList []))
               = Raise TypeError).
  { unfold dict_get_default. rewrite Hv.
    destruct Hty as [H|[->|[b ->]]]; [|reflexivity|reflexivity].
    destruct v; try discriminate H; reflexivity. }
  assert (Hr : respond raw
               = ([StSubheader [Lit (lit "✅ Nutrition Summary (Estimated)")];
                   StMarkdown [Lit (lit "### 🍽️ Dish: **");
                               StrOf (dict_get_default d (lit "dish_name")
                                        (VStr (lit "Unknown")));
                               Lit (lit "**")];
                   StMarkdown [Lit (lit "#### 🧂 Ingredients")]],
                  Raise TypeError)).
  { unfold respond. rewrite (safe_json_parse_ok raw _ Hp).
    cbn [bind show_result app].
    destruct d as [|kv d']; [easy|]. cbn [truthy].
    unfold render_report, show_dish_and_ingredients. run.
    rewrite Hj. reflexivity. }
  rewrite (run_analysis_trace w f es image _ Ha Hi Hs
             (guarded_call_caught w _ image raw _ TypeError Hg Hr)).
  reflexivity.
Qed.

Lemma wrong_ingredients_stop_the_report_witness :
  let d := [(lit "dish_name", VStr (lit "Idli")); (lit "ingredients", VInt 5)] in
  analyze IDLI_FORM = true
  /\ has_input IDLI_FORM = true
  /\ image_step WRONG_TYPE_WORLD IDLI_FORM = ([], Ok None)
  /\ gemini WRONG_TYPE_WORLD (full_prompt IDLI_FORM) None = Ok WRONG_TYPE_REPLY
  /\ safe_json_parse_try WRONG_TYPE_REPLY = Ok (VDict d)
  /\ dict_get d (lit "ingredients") = Some (VInt 5)
  /\ run_analysis WRONG_TYPE_WORLD IDLI_FORM
     = ([] ++ [SPINNER; GenerateContent (full_prompt IDLI_FORM) None;
               StSubheader [Lit (lit "✅ Nutrition Summary (Estimated)")];
               StMarkdown [Lit (lit "### 🍽️ Dish: **");
                           StrOf (dict_get_default d (lit "dish_name")
                                    (VStr (lit "Unknown")));
                           Lit (lit "**")];
               StMarkdown [Lit (lit "#### 🧂 Ingredients")];
               StError [Lit (lit "❌ Error: "); ErrOf TypeError];
               SpinnerLeave], Ok tt).
Proof.
  intros d.
  assert (H1 : analyze IDLI_FORM = true) by reflexivity.
  assert (H2 : has_input IDLI_FORM = true) by reflexivity.
  assert (H3 : image_step WRONG_TYPE_WORLD IDLI_FORM = ([], Ok None))
    by reflexivity.
  assert (H4 : gemini WRONG_TYPE_WORLD (full_prompt IDLI_FORM) None
               = Ok WRONG_TYPE_REPLY) by reflexivity.
  assert (H5 : safe_json_parse_try WRONG_TYPE_REPLY = Ok (VDict d))
    by (vm_compute; reflexivity).
  assert (H6 : dict_get d (lit "ingredients") = Some (VInt 5)) by reflexivity.
  exact (conj H1 (conj H2 (conj H3 (conj H4 (conj H5 (conj H6
           (wrong_ingredients_stop_the_report WRONG_TYPE_WORLD IDLI_FORM
              [] None _ d _ H1 H2 H3 H4 H5 H6 (or_introl eq_refl)))))))).
Defined.

(** X14.  When the reply holds a partial report that is not empty, the run
    is the model call followed by the rendering of the report, inside the
    spinner: every missing field is shown with its default, and neither an
    error box nor the notice of a failed parse is added. *)
Theorem partial_report_run
  (w : world) (f : form) es image (raw : text) (d : dict) :
  analyze f = true -> has_input f = true ->
  image_step w f = (es, Ok image) ->
  gemini w (full_prompt f) image = Ok raw ->
  safe_json_parse_try raw = Ok (VDict d) ->
  d <> [] ->
  partial_report d = true ->
  exists rs,
    render_report (VDict d) = (rs, Ok tt)
    /\ defaults_shown d rs
    /\ run_analysis w f
       = (es ++ SPINNER :: GenerateContent (full_prompt f) image
             :: rs ++ [SpinnerLeave], Ok tt).
Proof.
  intros Ha Hi Hs Hg Hp Hd Hshape.
  destruct (render_report_ok d Hshape) as (rs & Hr & Hdef).
  exists rs. split; [exact Hr|]. split; [exact Hdef|].
  assert (Hrs : respond raw = (rs, Ok tt)).
  { unfold respond. rewrite (safe_json_parse_ok raw _ Hp).
    cbn [bind show_result app].
    destruct d as [|kv d']; [easy|]. cbn [truthy]. rewrite Hr. reflexivity. }
  rewrite (run_analysis_trace w f es image _ Ha Hi Hs
             (guarded_call_shown w _ image raw rs Hg Hrs)).
  reflexivity.
Qed.

Lemma partial_report_run_witness :
  analyze IDLI_FORM = true
  /\ has_input IDLI_FORM = true
  /\ image_step SCENARIO_WORLD IDLI_FORM = ([], Ok None)
  /\ gemini SCENARIO_WORLD (full_prompt IDLI_FORM) None = Ok IDLI_REPLY
  /\ safe_json_parse_try IDLI_REPLY = Ok (VDict TWO_FIELD_REPORT)
  /\ TWO_FIELD_REPORT <> []
  /\ partial_report TWO_FIELD_REPORT = true
  /\ exists rs,
      render_report (VDict TWO_FIELD_REPORT) = (rs, Ok tt)
      /\ defaults_shown TWO_FIELD_REPORT rs
      /\ run_analysis SCENARIO_WORLD IDLI_FORM
         = ([] ++ SPINNER :: GenerateContent (full_prompt IDLI_FORM) None
               :: rs ++ [SpinnerLeave], Ok tt).
Proof.
  assert (H1 : analyze IDLI_FORM = true) by reflexivity.
  assert (H2 : has_input IDLI_FORM = true) by reflexivity.
  assert (H3 : image_step SCENARIO_WORLD IDLI_FORM = ([], Ok None))
    by reflexivity.
  assert (H4 : gemini SCENARIO_WORLD (full_prompt IDLI_FORM) None
               = Ok IDLI_REPLY) by reflexivity.
  assert (H5 : safe_json_parse_try IDLI_REPLY = Ok (VDict TWO_FIELD_REPORT))
    by (vm_compute; reflexivity).
  assert (H6 : TWO_FIELD_REPORT <> []) by discriminate.
  assert (H7 : partial_report TWO_FIELD_REPORT = true) by reflexivity.
  exact (conj H1 (conj H2 (conj H3 (conj H4 (conj H5 (conj H6 (conj H7
           (partial_report_run SCENARIO_WORLD IDLI_FORM [] None _ _
              H1 H2 H3 H4 H5 H6 H7)))))))).
Defined.

(** ** Sections of the report on values of another type or none *)

Lemma for_each_emit {A} (g : A -> event) (l : list A) :
  for_each l (fun x => emit (g x)) = (map g l, Ok tt).
Proof.
  induction l as [|x l IH]; [reflexivity|].
  cbn [for_each map]. now apply (bind_ok _ _ [g x] tt (map g l)).
Qed.

(** X15.  Advice that is one string instead of a list of strings is not
    refused: the loop goes through its characters and the page shows one
    advice line for each character. *)
Theorem advice_string_is_split (d : dict) (s : text) :
  dict_get d (lit "advice") = Some (VStr s) ->
  show_advice (VDict d)
  = (StMarkdown [Lit (lit "#### 💡 Advice")]
       :: map (fun c => StWrite [Lit (lit "- "); StrOf (VStr [c])]) s,
     Ok tt).
Proof.
  intros H. unfold show_advice. run. unfold dict_get_default. rewrite H.
  run. rewrite (for_each_emit (fun tip => StWrite [Lit (lit "- "); StrOf tip])).
  rewrite map_map. reflexivity.
Qed.

Lemma advice_string_is_split_witness :
  dict_get [(lit "advice", VStr (lit "Eat"))] (lit "advice")
  = Some (VStr (lit "Eat"))
  /\ show_advice (VDict [(lit "advice", VStr (lit "Eat"))])
     = (StMarkdown [Lit (lit "#### 💡 Advice")]
          :: map (fun c => StWrite [Lit (lit "- "); StrOf (VStr [c])])
               (lit "Eat"), Ok tt).
Proof.
  assert (H : dict_get [(lit "advice", VStr (lit "Eat"))] (lit "advice")
              = Some (VStr (lit "Eat"))) by reflexivity.
  exact (conj H (advice_string_is_split _ _ H)).
Defined.

Lemma replace_single_gone (c c' : char) (s : text) :
  c <> c' -> ~ In c (replace_from [c] [c'] 0 s).
Proof.
  intros Hne. induction s as [|a s IH]; [easy|].
  cbn [replace_from List.length Nat.sub]. rewrite starts_with_single.
  destruct (N.eqb_spec c a) as [->|Ha]; cbn [app].
  - intros [H|H]; [now apply Hne | now apply IH].
  - intros [H|H]; [now apply Ha | now apply IH].
Qed.

(** X16.  The line of a micronutrient shows a label without any
    underscore, whatever the key is, and the unit mg exactly when the key
    holds the letters mg. *)
Theorem micro_label_has_no_underscore (k : text) (v : value) :
  exists label,
    show_micro (k, v)
    = ([StWrite [Lit (lit "**"); Capitalized label; Lit (lit "**: "); StrOf v;
                 Lit (lit " ");
                 Lit (if contains (lit "mg") k then lit "mg" else lit "µg")]],
       Ok tt)
    /\ ~ In (ch "_") label.
Proof.
  eexists. split; [reflexivity|].
  change (lit "_") with [ch "_"]. change (lit " ") with [ch " "].
  unfold replace at 1. apply replace_single_gone. discriminate.
Qed.

(** ** What a returned record was decoded from *)

Lemma find_nat_single_first (c : char) (s : text) (i : nat) :
  find_nat [c] s = Some i ->
  exists x y, s = x ++ c :: y /\ List.length x = i /\ ~ In c x.
Proof.
  revert i. induction s as [|a s IH]; intros i; cbn [find_nat];
    rewrite starts_with_single.
  - discriminate.
  - destruct (N.eqb_spec c a) as [->|Hne].
    + intros [= <-]. exists [], s. repeat split. easy.
    + destruct (find_nat [c] s) as [j|] eqn:E; [|discriminate].
      intros [= <-]. destruct (IH j eq_refl) as (x & y & -> & Hl & Hn).
      exists (a :: x), y. split; [reflexivity|]. split; [cbn; now rewrite Hl|].
      intros [H|H]; [now apply Hne | now apply Hn].
Qed.

Lemma rfind_nat_single_last (c : char) (s : text) (i : nat) :
  rfind_nat [c] s = Some i ->
  exists x y, s = x ++ c :: y /\ List.length x = i /\ ~ In c y.
Proof.
  revert i. induction s as [|a s IH]; intros i; cbn [rfind_nat].
  - discriminate.
  - destruct (rfind_nat [c] s) as [j|] eqn:E.
    + intros [= <-]. destruct (IH j eq_refl) as (x & y & -> & Hl & Hn).
      exists (a :: x), y. split; [reflexivity|]. split; [cbn; now rewrite Hl|].
      exact Hn.
    + rewrite starts_with_single.
      destruct (N.eqb_spec c a) as [->|Hne]; [|intros Hx; discriminate Hx].
      intros [= <-]. exists [], s. repeat split.
      clear IH. induction s as [|b s IHs]; [easy|].
      cbn [rfind_nat] in E. destruct (rfind_nat [a] s); [discriminate|].
      rewrite starts_with_single in E.
      destruct (N.eqb_spec a b) as [->|Hb]; [discriminate E|].
      intros [H|H]; [now apply Hb | now apply IHs].
Qed.

Lemma slice_empty (s : text) (i j : Z) :
  0 <= i -> 0 <= j -> j <= i -> slice s i j = [].
Proof.
  intros Hi Hj Hji. unfold slice, clamp_index.
  assert (E1 : (i <? 0) = false) by (apply Z.ltb_ge; lia).
  assert (E2 : (j <? 0) = false) by (apply Z.ltb_ge; lia).
  rewrite E1, E2.
  replace (Z.to_nat _) with O by lia. reflexivity.
Qed.

(** X17.  When the extractor returns a record it shows no warning, and the
    record is what the decoder makes of the text from the first opening
    brace through the last closing brace of the reply once trimmed and
    freed of fence markers: the returned record never comes from a
    narrower or a wider span. *)
Theorem returned_record_is_the_brace_span
  (raw_text : text) (es : list event) (v : value) :
  safe_json_parse raw_text = (es, Ok (Some v)) ->
  es = []
  /\ exists before m after,
      unfenced raw_text = before ++ (ch "{" :: m ++ [ch "}"]) ++ after
      /\ ~ In (ch "{") before
      /\ ~ In (ch "}") after
      /\ json_loads (ch "{" :: m ++ [ch "}"]) = Ok v.
Proof.
  intros H.
  destruct (safe_json_parse_try raw_text) as [v'|e] eqn:E.
  2:{ rewrite (safe_json_parse_raise _ _ E) in H. discriminate H. }
  rewrite (safe_json_parse_ok _ _ E) in H. injection H as <- <-.
  split; [reflexivity|].
  revert E. unfold safe_json_parse_try. cbv zeta.
  set (u := unfenced raw_text).
  change (lit "{") with [ch "{"]. change (lit "}") with [ch "}"].
  unfold find, rfind.
  destruct (find_nat [ch "{"] u) as [i|] eqn:Ef; cbn [index_or_minus1];
    [|change (-1 =? -1) with true; cbn [negb andb]; cbv iota;
      intros Hx; discriminate Hx].
  destruct (rfind_nat [ch "}"] u) as [j|] eqn:Er; cbn [index_or_minus1];
    [|change (-1 =? -1) with true; cbn [negb]; rewrite andb_false_r;
      cbv iota; intros Hx; discriminate Hx].
  destruct (find_nat_single_first _ _ _ Ef) as (x1 & y1 & Hu1 & Hl1 & Hn1).
  destruct (rfind_nat_single_last _ _ _ Er) as (x2 & y2 & Hu2 & Hl2 & Hn2).
  destruct (_ && _); [|intros Hx; discriminate Hx]. intros E.
  assert (Hsame : x1 ++ ch "{" :: y1 = x2 ++ ch "}" :: y2) by congruence.
  apply app_eq_app in Hsame. destruct Hsame as [l [[Hx Hy]|[Hx Hy]]].
  - exfalso. destruct l as [|a l]; [discriminate Hy|].
    rewrite slice_empty in E; [discriminate E|lia|lia|].
    subst x1. rewrite <- Hl1, <- Hl2, length_app. cbn [List.length]. lia.
  - destruct l as [|a m]; [discriminate Hy|].
    injection Hy as <- Hy1.
    exists x1, m, y2. split; [|split; [exact Hn1|split; [exact Hn2|]]].
    + rewrite Hu1, Hy1. cbn [app]. now rewrite <- (app_assoc m).
    + replace u with (x1 ++ (ch "{" :: m ++ [ch "}"]) ++ y2) in E
        by (rewrite Hu1, Hy1; cbn [app]; now rewrite <- (app_assoc m)).
      replace (Z.of_nat j + 1)
        with (Z.of_nat (List.length x1
                        + List.length (ch "{" :: m ++ [ch "}"]))) in E
        by (subst x2; rewrite <- Hl2, length_app; cbn [List.length];
            rewrite length_app; cbn [List.length]; lia).
      rewrite <- Hl1, slice_exact in E. exact E.
Qed.

Lemma returned_record_is_the_brace_span_witness :
  safe_json_parse IDLI_REPLY = ([], Ok (Some IDLI_RECORD))
  /\ @nil event = []
  /\ exists before m after,
      unfenced IDLI_REPLY = before ++ (ch "{" :: m ++ [ch "}"]) ++ after
      /\ ~ In (ch "{") before
      /\ ~ In (ch "}") after
      /\ json_loads (ch "{" :: m ++ [ch "}"]) = Ok IDLI_RECORD.
Proof.
  assert (H : safe_json_parse IDLI_REPLY = ([], Ok (Some IDLI_RECORD)))
    by (vm_compute; reflexivity).
  exact (conj H (returned_record_is_the_brace_span IDLI_REPLY [] IDLI_RECORD H)).
Defined.

(** ** Keys of a decoded record *)










